(** * Hindi_Vosk: the streaming transcription pipeline

    A shallow embedding of the speech-to-text drivers of the repository:

    - [Testing_STT.py]: [LiveVoskRecognizer.process],
      [VoskSpeechRecognizer.load_model], [VoskSpeechRecognizer.transcribe_audio_file]
      and the "Transcribe File" handler of [main];
    - [Hindi_STT.py]: the capture loop [listen_audio] and the three button
      handlers of the page script.

    Python code is embedded in a state-and-exception monad.  The libraries the
    scripts call (vosk, librosa, wave, os.path.splitext, json) are interfaces:
    type classes whose operations may raise.  A small scripted recogniser at
    the end of the definitions instantiates them, so that every statement can
    be evaluated on concrete audio. *)

From Stdlib Require Import ZArith NArith String Ascii List Lia DecimalString.
From Stdlib.Strings Require Import Byte.
From stdpp Require Import base option list strings gmap.

Local Open Scope Z_scope.
Local Open Scope nat_scope.

(** ** Python values and control flow *)

Module Py.

(** Every exception raised by the modelled libraries is an instance of
    Python's [Exception]; [cls] is the class name, [msg] its message. *)
Inductive exn : Type :=
| Exception (cls : string) (msg : string).

Inductive outcome (A : Type) : Type :=
| Ret (a : A)
| Raise (e : exn).
Arguments Ret {A} a.
Arguments Raise {A} e.

(** A computation over a mutable state [S]: the state survives an
    exception, as the attributes of a Python object do. *)
Definition M (S A : Type) : Type := S -> outcome A * S.

Definition ret {S A} (a : A) : M S A := fun s => (Ret a, s).
Definition raise {S A} (e : exn) : M S A := fun s => (Raise e, s).
Definition bind {S A B} (m : M S A) (k : A -> M S B) : M S B :=
  fun s => match m s with
           | (Ret a, s') => k a s'
           | (Raise e, s') => (Raise e, s')
           end.
Definition get {S} : M S S := fun s => (Ret s, s).
Definition put {S} (s : S) : M S unit := fun _ => (Ret tt, s).
Definition modify {S} (f : S -> S) : M S unit := fun s => (Ret tt, f s).
Definition lift {S A} (o : outcome A) : M S A := fun s => (o, s).

(** [try: m except Exception as e: h e] *)
Definition try_except {S A} (m : M S A) (h : exn -> M S A) : M S A :=
  fun s => match m s with
           | (Ret a, s') => (Ret a, s')
           | (Raise e, s') => h e s'
           end.

(** [try: m finally: c].  The clean-up runs on every exit of [m]; when
    the clean-up itself raises, its exception replaces the outcome. *)
Definition try_finally {S A} (m : M S A) (c : M S unit) : M S A :=
  fun s => match m s with
           | (o, s') => match c s' with
                        | (Ret _, s'') => (o, s'')
                        | (Raise e, s'') => (Raise e, s'')
                        end
           end.

(** Run a computation on a component of the state (a method call on an
    object stored in a field). *)
Definition zoom {S T A} (proj : S -> T) (upd : T -> S -> S) (m : M T A) : M S A :=
  fun s => match m (proj s) with (o, t') => (o, upd t' s) end.

Declare Scope py_scope.
Delimit Scope py_scope with py.
Notation "'let*' x ':=' m 'in' k" := (bind m (fun x => k))
  (at level 10, x name, m at level 100, k at level 200) : py_scope.

(** *** [str] *)

(** [str.isspace] on one character, for the code points below 256. *)
Definition isspace (c : ascii) : bool :=
  let n := nat_of_ascii c in
  ((9 <=? n) && (n <=? 13)) || ((28 <=? n) && (n <=? 32))
  || (n =? 133) || (n =? 160).

Fixpoint lstrip (s : string) : string :=
  match s with
  | EmptyString => EmptyString
  | String c s' => if isspace c then lstrip s' else s
  end.

Fixpoint rstrip (s : string) : string :=
  match s with
  | EmptyString => EmptyString
  | String c s' =>
      match rstrip s' with
      | EmptyString => if isspace c then EmptyString else String c EmptyString
      | r => String c r
      end
  end.

(** [s.strip()] *)
Definition strip (s : string) : string := rstrip (lstrip s).

(** Truth value of a [str]: the empty string is false. *)
Definition truthy (s : string) : bool := negb (String.eqb s "").

(** [str(n)] / [f"{n}"] for a non-negative [int]. *)
Definition str_of_N (n : N) : string := NilZero.string_of_uint (N.to_uint n).

(** [sep.join(l)] *)
Fixpoint join (sep : string) (l : list string) : string :=
  match l with
  | [] => ""
  | [s] => s
  | s :: l' => s +:+ sep +:+ join sep l'
  end.

(** *** [dict] with [str] keys and [str] values, as [json.loads] returns
    for the fields the scripts read. *)
Abbreviation dict := (gmap string string).

(** [d.get(k, dflt)] *)
Definition dict_get (d : dict) (k : string) (dflt : string) : string :=
  default dflt (d !! k).

(** *** Sequences *)

(** [range(start, stop, step)] for [0 < step]. *)
Definition range (start stop step : nat) : list nat :=
  (fun k => start + k * step) <$> seq 0 ((stop - start + step - 1) / step).

(** [a[i:j]] for [0 <= i <= j]; both ends are clamped to [len(a)]. *)
Definition slice {A} (a : list A) (i j : nat) : list A := take (j - i) (drop i a).

(** *** numpy [int16] arrays, as lists of integers in [-32768, 32767] *)

Definition byte_of_Z (z : Z) : byte :=
  match Byte.of_N (Z.to_N (z mod 256)) with Some b => b | None => x00 end.

Definition Z_of_byte (b : byte) : Z := Z.of_N (Byte.to_N b).

(** Little-endian two's complement. *)
Definition int16_of_bytes (lo hi : byte) : Z :=
  let u := (Z_of_byte lo + 256 * Z_of_byte hi)%Z in
  if (u <? 32768)%Z then u else (u - 65536)%Z.

(** [np.frombuffer(buf, dtype=np.int16)] *)
Fixpoint frombuffer_int16 (buf : list byte) : outcome (list Z) :=
  match buf with
  | [] => Ret []
  | [_] => Raise (Exception "ValueError" "buffer size must be a multiple of element size")
  | lo :: hi :: buf' =>
      match frombuffer_int16 buf' with
      | Ret a => Ret (int16_of_bytes lo hi :: a)
      | Raise e => Raise e
      end
  end.

(** [a.tobytes()] *)
Definition tobytes (a : list Z) : list byte :=
  a ≫= (fun x => [byte_of_Z x; byte_of_Z (x / 256)]).

End Py.

(** ** The libraries the scripts call *)

Module Lib.
Import Py.
Local Open Scope py_scope.

(** The vosk package.  A [KaldiRecognizer] is a mutable object: each method
    is a computation over its state.  [Result], [PartialResult] and
    [FinalResult] stand for the method followed by [json.loads], as every
    call site composes them. *)
Class Vosk : Type := {
  Model : Type;
  KaldiRec : Type;
  vosk_Model : gmap string (list byte) -> string -> outcome Model;
  KaldiRecognizer : Model -> N -> outcome KaldiRec;
  SetWords : bool -> M KaldiRec unit;
  AcceptWaveform : list byte -> M KaldiRec bool;
  Result : M KaldiRec dict;
  PartialResult : M KaldiRec dict;
  FinalResult : M KaldiRec dict
}.

(** What [wave.open(path, 'rb')] exposes of a file. *)
Record Wave_read : Type := {
  getnchannels : N;
  getsampwidth : N;
  getcomptype : string;
  getframerate : N;
  getnframes : N;
  wave_data : list byte
}.

(** [wf.readframes(n)] on a freshly opened file. *)
Definition readframes (wf : Wave_read) (n : N) : list byte :=
  take (N.to_nat (n * getnchannels wf * getsampwidth wf)) (wave_data wf).

(** The rest of the environment of [Testing_STT.py]: the two import
    flags, librosa ([librosa_load_int16 path content sr] is
    [librosa.load(path, sr, mono=True)] followed by the scaling to 16-bit
    integers, on the file at [path], whose suffix the decoder may go by, with
    content [content]), the header parser of [wave.open], which goes by the
    content alone, and [os.path.splitext]. *)
Class Platform : Type := {
  VOSK_AVAILABLE : bool;
  LIBROSA_AVAILABLE : bool;
  librosa_load_int16 : string -> list byte -> N -> outcome (list Z);
  wave_open : list byte -> outcome Wave_read;
  os_path_splitext : string -> string * string
}.

(** The capture device of [Hindi_STT.py]: entering
    [sd.InputStream(callback=..., channels=1, samplerate=..., dtype='int16')]. *)
Class SoundDevice : Type := {
  InputStream_enter : N -> outcome unit
}.

(** The disk: file contents by path, and the names [tempfile] will try
    next. *)
Record world : Type := {
  files : gmap string (list byte);
  tmp_names : list string
}.

Definition set_files (f : gmap string (list byte) -> gmap string (list byte)) (w : world) : world :=
  {| files := f (files w); tmp_names := tmp_names w |}.

(** [os.path.exists(path)] *)
Definition os_path_exists (w : world) (path : string) : bool :=
  bool_decide (is_Some (files w !! path)).

(** [os.unlink(path)] *)
Definition os_unlink (path : string) : M world unit :=
  fun w => if os_path_exists w path
           then (Ret tt, set_files (delete path) w)
           else (Raise (Exception "FileNotFoundError" path), w).

(** [tempfile] builds a path from the temporary directory, the prefix
    "tmp", a candidate name and the suffix. *)
Definition tmp_path (n suffix : string) : string := "/tmp/tmp" +:+ n +:+ suffix.

(** The first candidate whose path is not taken, with the names left. *)
Fixpoint mkstemp (fs : gmap string (list byte)) (names : list string) (suffix : string)
  : option (string * list string) :=
  match names with
  | [] => None
  | n :: names' =>
      if bool_decide (is_Some (fs !! tmp_path n suffix))
      then mkstemp fs names' suffix
      else Some (tmp_path n suffix, names')
  end.

(** [tempfile.NamedTemporaryFile(delete=False, suffix=suffix)]: the file
    exists, empty, as soon as the object is built; its [name] is returned. *)
Definition NamedTemporaryFile (suffix : string) : M world string :=
  fun w => match mkstemp (files w) (tmp_names w) suffix with
           | None => (Raise (Exception "FileExistsError" "No usable temporary file name found"), w)
           | Some (path, names') =>
               (Ret path, {| files := <[path := []]> (files w); tmp_names := names' |})
           end.

(** [tmp_file.write(data)] on a disk with room for [data]: the content
    is on disk when the [with] block closes the file. *)
Definition file_write (path : string) (data : list byte) : M world unit :=
  modify (set_files (insert path data)).

(** The bytes a library reads when it opens [path]. *)
Definition open_rb (path : string) : M world (list byte) :=
  fun w => match files w !! path with
           | Some content => (Ret content, w)
           | None => (Raise (Exception "FileNotFoundError" path), w)
           end.

End Lib.

(** ** Testing_STT.py *)

Module Testing_STT.
Import Py Lib.
Local Open Scope py_scope.

Section Code.
Context `{Vosk} `{Platform}.

(** *** class LiveVoskRecognizer *)

(** [live_model] is the attribute [model]. *)
Record LiveVoskRecognizer : Type := {
  live_model : Model;
  rec : KaldiRec;
  transcript : string
}.

Definition set_rec (r : KaldiRec) (self : LiveVoskRecognizer) : LiveVoskRecognizer :=
  {| live_model := live_model self; rec := r; transcript := transcript self |}.

Definition set_transcript (t : string) (self : LiveVoskRecognizer) : LiveVoskRecognizer :=
  {| live_model := live_model self; rec := rec self; transcript := t |}.

(** [LiveVoskRecognizer.__init__] *)
Definition LiveVoskRecognizer_init (model : Model) : outcome LiveVoskRecognizer :=
  match KaldiRecognizer model 16000 with
  | Raise e => Raise e
  | Ret r =>
      match SetWords true r with
      | (Ret _, r') => Ret {| live_model := model; rec := r'; transcript := "" |}
      | (Raise e, _) => Raise e
      end
  end.

(** [LiveVoskRecognizer.process] *)
Definition process (audio_bytes : list byte) : M LiveVoskRecognizer string :=
  let* endpoint := zoom rec set_rec (AcceptWaveform audio_bytes) in
  let* _ :=
    (if endpoint : bool
     then let* result := zoom rec set_rec Result in
          modify (fun self => set_transcript (transcript self +:+ dict_get result "text" "" +:+ " ") self)
     else let* partial := zoom rec set_rec PartialResult in
          ret tt) in
  let* self := get in
  ret (transcript self).

(** The frame callback of the live tab calls [process] on every frame, in
    arrival order. *)
Fixpoint process_each (frames : list (list byte)) : M LiveVoskRecognizer unit :=
  match frames with
  | [] => ret tt
  | audio_bytes :: frames' =>
      let* _ := process audio_bytes in
      process_each frames'
  end.

(** *** class VoskSpeechRecognizer *)

Record VoskSpeechRecognizer : Type := {
  model_path : string;
  model : option Model;
  sample_rate : N
}.

(** [VoskSpeechRecognizer.__init__] *)
Definition VoskSpeechRecognizer_init (path : string) : outcome VoskSpeechRecognizer :=
  if VOSK_AVAILABLE
  then Ret {| model_path := path; model := None; sample_rate := 16000 |}
  else Raise (Exception "ImportError" "Vosk library not found. Please install it using 'pip install vosk'").

(** [VoskSpeechRecognizer.load_model]; the disk is only read. *)
Definition load_model (w : world) : M VoskSpeechRecognizer bool :=
  try_except
    (let* self := get in
     if negb (os_path_exists w (model_path self))
     then ret false
     else let* m := lift (vosk_Model (files w) (model_path self)) in
          let* _ := put {| model_path := model_path self; model := Some m;
                           sample_rate := sample_rate self |} in
          ret true)
    (fun e => ret false).

(** The uploaded file object, as far as [transcribe_audio_file] uses it:
    its [name] and what its [read()] does when called. *)
Record UploadedFile : Type := {
  name : string;
  read : outcome (list byte)
}.

(** The local variables of [transcribe_audio_file] that outlive the [try]
    block, next to the disk. *)
Record frame : Type := {
  disk : world;
  tmp_file_path : option string
}.

Definition on_disk {A} (m : M world A) : M frame A :=
  zoom disk (fun w fr => {| disk := w; tmp_file_path := tmp_file_path fr |}) m.

Definition set_tmp_file_path (p : string) : M frame unit :=
  modify (fun fr => {| disk := disk fr; tmp_file_path := Some p |}).

Definition chunk_size : nat := 4000.

(** Lines 112-113: the values [chunk] takes, one per index of
    [range(0, len(audio_int16), chunk_size)]. *)
Definition chunks_of (audio_int16 : list Z) : list (list Z) :=
  (fun i => slice audio_int16 i (i + chunk_size)) <$> range 0 (length audio_int16) chunk_size.

(** Lines 112-116: the loop, over the chunks still to come. *)
Fixpoint for_chunks (chunks : list (list Z)) (transcript : string) : M KaldiRec string :=
  match chunks with
  | [] => ret transcript
  | chunk :: chunks' =>
      let* endpoint := AcceptWaveform (tobytes chunk) in
      if endpoint : bool
      then let* result := Result in
           for_chunks chunks' (transcript +:+ dict_get result "text" "" +:+ " ")
      else for_chunks chunks' transcript
  end.

(** Lines 106-122: a fresh recogniser, the chunk loop, the final flush. *)
Definition recognize (m : Model) (rate : N) (audio_int16 : list Z) : outcome string :=
  match KaldiRecognizer m rate with
  | Raise e => Raise e
  | Ret rec0 =>
      fst ((let* _ := SetWords true in
            let* transcript := for_chunks (chunks_of audio_int16) "" in
            let* final_result := FinalResult in
            ret (strip (transcript +:+ dict_get final_result "text" ""))) rec0)
  end.

(** Lines 99-104: the checks made when librosa is missing.  [inl] is the
    value of an early [return], [inr] the decoded samples. *)
Definition wave_fallback (self : VoskSpeechRecognizer) (wf : Wave_read)
  : outcome (string + list Z) :=
  if negb (getnchannels wf =? 1)%N || negb (getsampwidth wf =? 2)%N
     || negb (String.eqb (getcomptype wf) "NONE")
  then Ret (inl "Error: Without 'librosa', only 16-bit mono PCM WAV files are supported.")
  else if negb (getframerate wf =? sample_rate self)%N
  then Ret (inl ("Error: Audio must be " +:+ str_of_N (sample_rate self)
                 +:+ "Hz. This file is " +:+ str_of_N (getframerate wf) +:+ "Hz."))
  else match frombuffer_int16 (readframes wf (getnframes wf)) with
       | Ret a => Ret (inr a)
       | Raise e => Raise e
       end.

(** Lines 93-104. *)
Definition load_audio (self : VoskSpeechRecognizer) (path : string)
  : M world (string + list Z) :=
  if LIBROSA_AVAILABLE
  then let* content := open_rb path in
       let* audio_int16 := lift (librosa_load_int16 path content (sample_rate self)) in
       ret (inr audio_int16)
  else let* content := open_rb path in
       let* wf := lift (wave_open content) in
       lift (wave_fallback self wf).

(** Line 84. *)
Definition file_extension (audio_file : UploadedFile) : string :=
  if truthy (name audio_file) then snd (os_path_splitext (name audio_file)) else ".tmp".

(** Lines 83-104: the upload is copied to a temporary file and decoded.
    [inl] is the value of an early [return], [inr] the decoded samples. *)
Definition decode_upload (self : VoskSpeechRecognizer) (audio_file : UploadedFile)
  : M frame (string + list Z) :=
  let* tmp_file := on_disk (NamedTemporaryFile (file_extension audio_file)) in
  let* data := lift (read audio_file) in
  let* _ := on_disk (file_write tmp_file data) in
  let* _ := set_tmp_file_path tmp_file in
  on_disk (load_audio self tmp_file).

(** Lines 83-122: the body of the [try]. *)
Definition try_block (self : VoskSpeechRecognizer) (m : Model) (audio_file : UploadedFile)
  : M frame string :=
  let* loaded := decode_upload self audio_file in
  match loaded with
  | inl message => ret message
  | inr audio_int16 => lift (recognize m (sample_rate self) audio_int16)
  end.

(** The locals when the [try] statement is entered (line 81). *)
Definition entry (w : world) : frame := {| disk := w; tmp_file_path := None |}.

(** Lines 124-126. *)
Definition except_block (e : exn) : M frame string :=
  ret "Error during transcription.".

(** Lines 128-131. *)
Definition finally_block : M frame unit :=
  let* fr := get in
  match tmp_file_path fr with
  | Some path =>
      if truthy path && os_path_exists (disk fr) path
      then on_disk (os_unlink path)
      else ret tt
  | None => ret tt
  end.

(** [VoskSpeechRecognizer.transcribe_audio_file] *)
Definition transcribe_audio_file (self : VoskSpeechRecognizer) (audio_file : UploadedFile)
  : M world string :=
  match model self with
  | None => ret "Error: Vosk model is not loaded."
  | Some m =>
      fun w =>
        match try_finally (try_except (try_block self m audio_file) except_block)
                          finally_block (entry w) with
        | (o, fr) => (o, disk fr)
        end
  end.

(** *** main: the "Transcribe File" button (lines 465-480) *)

Record session_state : Type := {
  vosk_recognizer : option VoskSpeechRecognizer;
  model_loaded : bool;
  vosk_transcript : string
}.

Definition set_vosk_transcript (t : string) (ss : session_state) : session_state :=
  {| vosk_recognizer := vosk_recognizer ss; model_loaded := model_loaded ss;
     vosk_transcript := t |}.

(** One run of the page with [uploaded_file] in the uploader and
    [clicked] telling whether "Transcribe File" was pressed. *)
Definition transcribe_file_button (uploaded_file : option UploadedFile) (clicked : bool)
  : M (session_state * world) unit :=
  fun '(ss, w) =>
    if model_loaded ss then
      match uploaded_file with
      | Some file =>
          if clicked then
            match vosk_recognizer ss with
            | Some recognizer =>
                match transcribe_audio_file recognizer file w with
                | (Ret transcript, w') => (Ret tt, (set_vosk_transcript transcript ss, w'))
                | (Raise e, w') => (Raise e, (ss, w'))
                end
            | None =>
                (Raise (Exception "AttributeError"
                          "'NoneType' object has no attribute 'transcribe_audio_file'"),
                 (ss, w))
            end
          else (Ret tt, (ss, w))
      | None => (Ret tt, (ss, w))
      end
    else (Ret tt, (ss, w)).

End Code.
End Testing_STT.

(** ** Hindi_STT.py *)

Module Hindi_STT.
Import Py Lib.
Local Open Scope py_scope.

Section Code.
Context `{Vosk} `{SoundDevice}.

Definition samplerate : N := 16000.

(** What one run of the script works on: the globals [rec],
    [keep_listening], [final_text] of the namespace the run executes in,
    the two entries of [st.session_state], and the number of [listen_audio]
    threads started so far.  A capture thread works on the namespace of the
    run that started it, as the [global] statement of [listen_audio] reads;
    the display loop of that run reads the same copy.  The session state and
    the threads outlive the run, the namespace does not: see [new_run]. *)
Record globals : Type := {
  rec : KaldiRec;
  keep_listening : bool;
  final_text : string;
  is_listening : bool;
  transcript : string;
  threads : nat
}.

Definition set_rec (r : KaldiRec) (g : globals) : globals :=
  {| rec := r; keep_listening := keep_listening g; final_text := final_text g;
     is_listening := is_listening g; transcript := transcript g; threads := threads g |}.

Definition set_keep_listening (b : bool) (g : globals) : globals :=
  {| rec := rec g; keep_listening := b; final_text := final_text g;
     is_listening := is_listening g; transcript := transcript g; threads := threads g |}.

Definition set_final_text (t : string) (g : globals) : globals :=
  {| rec := rec g; keep_listening := keep_listening g; final_text := t;
     is_listening := is_listening g; transcript := transcript g; threads := threads g |}.

Definition set_is_listening (b : bool) (g : globals) : globals :=
  {| rec := rec g; keep_listening := keep_listening g; final_text := final_text g;
     is_listening := b; transcript := transcript g; threads := threads g |}.

Definition set_transcript (t : string) (g : globals) : globals :=
  {| rec := rec g; keep_listening := keep_listening g; final_text := final_text g;
     is_listening := is_listening g; transcript := t; threads := threads g |}.

Definition start_thread (g : globals) : globals :=
  {| rec := rec g; keep_listening := keep_listening g; final_text := final_text g;
     is_listening := is_listening g; transcript := transcript g; threads := S (threads g) |}.

(** The state of the module once its top-level assignments have run
    (lines 13-20 and 124-127), [r] being the recogniser of line 16. *)
Definition initial (r : KaldiRec) : globals :=
  {| rec := r; keep_listening := false; final_text := "";
     is_listening := false; transcript := ""; threads := 0 |}.


(** What the capture loop meets, in order: [Chunk data] when [q.get()]
    returns [data] (the queue hands out the chunks in the order [callback]
    put them), [StopRequest] when an assignment [keep_listening = False] to
    the namespace the thread works on lands before the next test of the
    loop condition. *)
Inductive event : Type :=
| Chunk (data : list byte)
| StopRequest.

(** Lines 36-42: one turn of the loop, [data] being the value of [q.get()]. *)
Definition loop_body (data : list byte) : M globals unit :=
  let* endpoint := zoom rec set_rec (AcceptWaveform data) in
  if endpoint : bool
  then let* result := zoom rec set_rec Result in
       match result !! "text" with
       | Some text =>
           if truthy text
           then modify (fun g => set_final_text (final_text g +:+ text +:+ " ") g)
           else ret tt
       | None => ret tt
       end
  else let* _ := zoom rec set_rec PartialResult in
       ret tt.

(** Line 35: [while keep_listening].  At the end of the schedule the
    thread is waiting in [q.get()]. *)
Fixpoint while_keep_listening (sched : list event) : M globals unit :=
  match sched with
  | [] => ret tt
  | StopRequest :: sched' =>
      let* _ := modify (set_keep_listening false) in
      while_keep_listening sched'
  | Chunk data :: sched' =>
      let* g := get in
      if keep_listening g
      then let* _ := loop_body data in
           while_keep_listening sched'
      else ret tt
  end.

(** [listen_audio] *)
Definition listen_audio (sched : list event) : M globals unit :=
  let* _ := lift (InputStream_enter samplerate) in
  while_keep_listening sched.

(** *** The page script (lines 134-154) *)

Inductive button : Type := StartListening | StopListening | ClearTranscript.

Definition button_eqb (a b : button) : bool :=
  match a, b with
  | StartListening, StartListening => true
  | StopListening, StopListening => true
  | ClearTranscript, ClearTranscript => true
  | _, _ => false
  end.

(** [st.button(label, disabled=disabled)]: true on the run that follows a
    click on the button.  [disabled] greys the button out on the page this
    run draws; it does not take back a click made on the page the run before
    drew.  Line 136 draws Start before line 137 raises [is_listening], and
    the run then stays in the display loop, so Start is drawn enabled for as
    long as the page listens. *)
Definition st_button (click : option button) (b : button) (disabled : bool) : bool :=
  match click with
  | Some b' => button_eqb b b'
  | None => false
  end.

(** Lines 136-142. *)
Definition start_handler (click : option button) : M globals unit :=
  let* g := get in
  if st_button click StartListening (is_listening g)
  then let* _ := modify (set_is_listening true) in
       let* _ := modify (set_keep_listening true) in
       let* _ := modify (set_final_text "") in
       let* _ := modify (set_transcript "") in
       modify start_thread
  else ret tt.

(** Lines 145-148. *)
Definition stop_handler (click : option button) : M globals unit :=
  let* g := get in
  if st_button click StopListening (negb (is_listening g))
  then let* _ := modify (set_keep_listening false) in
       modify (set_is_listening false)
  else ret tt.

(** Lines 151-154. *)
Definition clear_handler (click : option button) : M globals unit :=
  if st_button click ClearTranscript false
  then let* _ := modify (set_transcript "") in
       modify (set_final_text "")
  else ret tt.

(** Lines 134-154 of the run that handles the user action [click], on
    the namespace of that run. *)
Definition page (click : option button) : M globals unit :=
  let* _ := start_handler click in
  let* _ := stop_handler click in
  clear_handler click.

(** Lines 163: one turn of the display loop. *)
Definition display_turn : M globals unit :=
  let* g := get in
  if is_listening g && keep_listening g
  then modify (set_transcript (final_text g))
  else ret tt.

End Code.
End Hindi_STT.

(** ** Testing_STT.py: the page around the recogniser *)

Module Testing_STT_page.
Import Py Lib Testing_STT.
Local Open Scope py_scope.

Section Code.
Context `{Vosk} `{Platform}.

(** Lines 149-154: the entries a first run puts in [st.session_state]. *)
Definition initial_session : session_state :=
  {| vosk_recognizer := None; model_loaded := false; vosk_transcript := "" |}.

(** Lines 176-197: the sidebar, [path] being the content of the text
    input and [clicked] telling whether "Load Vosk Model" was pressed.  The
    object stored in the session is the one [load_model] has filled in.  The
    result tells whether [st.rerun()] was called. *)
Definition load_model_button (path : string) (clicked : bool)
  : M (session_state * world) bool :=
  fun '(ss, w) =>
    if VOSK_AVAILABLE then
      if clicked then
        if os_path_exists w path then
          match VoskSpeechRecognizer_init path with
          | Raise e => (Raise e, (ss, w))
          | Ret recognizer =>
              match load_model w recognizer with
              | (Ret true, recognizer') =>
                  (Ret true,
                   ({| vosk_recognizer := Some recognizer'; model_loaded := true;
                       vosk_transcript := vosk_transcript ss |}, w))
              | (Ret false, _) =>
                  (Ret false,
                   ({| vosk_recognizer := vosk_recognizer ss; model_loaded := false;
                       vosk_transcript := vosk_transcript ss |}, w))
              | (Raise e, _) => (Raise e, (ss, w))
              end
          end
        else (Ret false, (ss, w))
      else (Ret false, (ss, w))
    else (Ret false, (ss, w)).

(** What the user has done before a run of the page. *)
Record inputs : Type := {
  model_path_input : string;
  load_clicked : bool;
  uploaded_file : option UploadedFile;
  transcribe_clicked : bool
}.

(** One run of [main], as far as the recogniser is concerned: the
    sidebar, then the upload tab.  [st.rerun()] abandons the run; the run
    that follows it has no click and changes nothing. *)
Definition main (i : inputs) : M (session_state * world) unit :=
  let* rerun := load_model_button (model_path_input i) (load_clicked i) in
  if rerun : bool
  then ret tt
  else transcribe_file_button (uploaded_file i) (transcribe_clicked i).

(** The runs of a session, one per user action. *)
Fixpoint main_runs (actions : list inputs) : M (session_state * world) unit :=
  match actions with
  | [] => ret tt
  | i :: actions' =>
      let* _ := main i in
      main_runs actions'
  end.

(** The upload tab can work: when [model_loaded] is set, the session
    holds a recogniser whose model is loaded. *)
Definition usable (ss : session_state) : bool :=
  implb (model_loaded ss)
        match vosk_recognizer ss with
        | Some recognizer => bool_decide (is_Some (model recognizer))
        | None => false
        end.

End Code.
End Testing_STT_page.

(** ** Testing_STT.py: the script of the browser component (lines 336-394) *)

Module WebSpeech.

(** One entry of [event.results]: [results[i][0].transcript] and
    [results[i].isFinal]. *)
Record SpeechRecognitionResult : Type := {
  transcript : string;
  isFinal : bool
}.

Record SpeechRecognitionEvent : Type := {
  resultIndex : nat;
  results : list SpeechRecognitionResult
}.

(** The variable [finalTranscript] and the text last written to the two
    spans. *)
Record component : Type := {
  finalTranscript : string;
  finalSpan : string;
  interimSpan : string
}.

Definition placeholder : string := "Your speech will appear here...".

(** The loop of [recognition.onresult], over the results from
    [event.resultIndex] on: the pair is [finalTranscript] and [interim]. *)
Fixpoint scan (rs : list SpeechRecognitionResult) (final interim : string)
  : string * string :=
  match rs with
  | [] => (final, interim)
  | r :: rs' =>
      if isFinal r
      then scan rs' (final +:+ transcript r +:+ " ") interim
      else scan rs' final (interim +:+ transcript r)
  end.

(** [recognition.onresult] *)
Definition onresult (event : SpeechRecognitionEvent) (c : component) : component :=
  let '(final, interim) :=
    scan (drop (resultIndex event) (results event)) (finalTranscript c) "" in
  {| finalTranscript := final; finalSpan := final; interimSpan := interim |}.

(** [clearTranscript] *)
Definition clearTranscript (c : component) : component :=
  {| finalTranscript := ""; finalSpan := placeholder; interimSpan := "" |}.

(** The final parts an event carries, in order. *)
Definition final_parts (event : SpeechRecognitionEvent) : list string :=
  transcript <$> List.filter isFinal (drop (resultIndex event) (results event)).

(** The parts still tentative. *)
Definition interim_parts (event : SpeechRecognitionEvent) : list string :=
  transcript <$> List.filter (fun r => negb (isFinal r))
                   (drop (resultIndex event) (results event)).

End WebSpeech.

(** ** Hindi_STT.py: the capture callback *)

Module Hindi_STT_runs.
Import Py Lib Hindi_STT.
Local Open Scope py_scope.

(** [callback] (lines 26-29) over the queue [q], oldest chunk first.
    [status] is the truth value of the flags the device reports.  The
    module does not import [sys], so looking it up raises. *)
Definition callback (indata : list byte) (status : bool) : M (list (list byte)) unit :=
  if status
  then raise (Exception "NameError" "name 'sys' is not defined")
  else modify (fun q => q ++ [indata]).

(** The stream calls [callback] block after block, and not again once it
    has raised. *)
Fixpoint capture (blocks : list (list byte * bool)) : M (list (list byte)) unit :=
  match blocks with
  | [] => ret tt
  | (indata, status) :: blocks' =>
      let* _ := callback indata status in
      capture blocks'
  end.

(** The blocks handed over before the first one that comes with a
    status. *)
Fixpoint before_status (blocks : list (list byte * bool)) : list (list byte) :=
  match blocks with
  | [] => []
  | (indata, status) :: blocks' =>
      if status then [] else indata :: before_status blocks'
  end.

End Hindi_STT_runs.

(** ** What the specification talks about *)

Module Spec.
Import Py Lib.

Section Updates.
Context `{Vosk}.

(** The text of every [Final] update a recogniser in state [r] emits while
    [chunks] are fed in order: one per chunk on which [AcceptWaveform]
    reports an endpoint, the text being the "text" field of [Result] (empty
    when absent).  [poll] tells whether the driver asks for [PartialResult]
    after the other chunks.  The second component is the recogniser left
    behind, or the exception that ended the feed. *)
Fixpoint final_texts (poll : bool) (chunks : list (list byte)) (r : KaldiRec)
  : list string * outcome KaldiRec :=
  match chunks with
  | [] => ([], Ret r)
  | data :: chunks' =>
      match AcceptWaveform data r with
      | (Raise e, _) => ([], Raise e)
      | (Ret true, r1) =>
          match Result r1 with
          | (Raise e, _) => ([], Raise e)
          | (Ret d, r2) =>
              let '(ts, o) := final_texts poll chunks' r2 in
              (dict_get d "text" "" :: ts, o)
          end
      | (Ret false, r1) =>
          if poll
          then match PartialResult r1 with
               | (Raise e, _) => ([], Raise e)
               | (Ret _, r2) => final_texts poll chunks' r2
               end
          else final_texts poll chunks' r1
      end
  end.

(** Every text followed by one separator. *)
Definition with_trailing (sep : string) (ts : list string) : string :=
  foldr (fun t acc => t +:+ sep +:+ acc) "" ts.

(** The text [stop()] flushes: the "text" field of [FinalResult]. *)
Definition flushed_text (r : KaldiRec) : outcome string :=
  match FinalResult r with
  | (Ret d, _) => Ret (dict_get d "text" "")
  | (Raise e, _) => Raise e
  end.


(** The [Final] texts of one file session on the decoded samples [audio],
    in emission order: those of the chunks, then the one flushed at the
    end. *)
Definition session_finals (m : Model) (rate : N) (audio : list Z) : outcome (list string) :=
  match KaldiRecognizer m rate with
  | Raise e => Raise e
  | Ret r0 =>
      match SetWords true r0 with
      | (Raise e, _) => Raise e
      | (Ret _, r0') =>
          match final_texts false (tobytes <$> Testing_STT.chunks_of audio) r0' with
          | (_, Raise e) => Raise e
          | (ts, Ret r1) =>
              match flushed_text r1 with
              | Raise e => Raise e
              | Ret f => Ret (ts ++ [f])
              end
          end
      end
  end.

(** What the transcript of a call is when the [try] block leaves with
    outcome [o]. *)
Definition reported (o : outcome string) : string :=
  match o with
  | Ret text => text
  | Raise _ => "Error during transcription."
  end.

(** What the call returns once the upload has been staged and loaded. *)
Definition answer (m : Model) (rate : N) (loaded : outcome (string + list Z)) : string :=
  match loaded with
  | Raise _ => "Error during transcription."
  | Ret (inl message) => message
  | Ret (inr audio_int16) => reported (Testing_STT.recognize m rate audio_int16)
  end.

End Updates.

(** The recogniser [V] with a recorder on [AcceptWaveform]: the state also
    keeps, oldest first, the buffers the method was called with.  Every
    method answers as the one of [V] does. *)
Definition recording (V : Vosk) : Vosk := {|
  Model := @Model V;
  KaldiRec := (@KaldiRec V * list (list byte))%type;
  vosk_Model := @vosk_Model V;
  KaldiRecognizer := fun m rate =>
    match @KaldiRecognizer V m rate with
    | Ret r => Ret (r, [])
    | Raise e => Raise e
    end;
  SetWords := fun b => zoom fst (fun r s => (r, snd s)) (@SetWords V b);
  AcceptWaveform := fun data s =>
    let '(o, r) := @AcceptWaveform V data (fst s) in
    (o, (r, snd s ++ [data]));
  Result := zoom fst (fun r s => (r, snd s)) (@Result V);
  PartialResult := zoom fst (fun r s => (r, snd s)) (@PartialResult V);
  FinalResult := zoom fst (fun r s => (r, snd s)) (@FinalResult V)
|}.

(** The buffers a recording recogniser has been given. *)
Definition fed {V : Vosk} (s : @KaldiRec (recording V)) : list (list byte) := snd s.

(** The properties of a file that the format check of section 4.1 looks at. *)
Inductive format_property : Type := ChannelCount | SampleWidth | SampleRate.

(** [wf] differs from mono 16-bit PCM at [rate] in property [p] and in
    nothing else. *)
Definition only_mismatch (rate : N) (wf : Wave_read) (p : format_property) : Prop :=
  getcomptype wf = "NONE" /\
  match p with
  | ChannelCount => getnchannels wf <> 1%N /\ getsampwidth wf = 2%N /\ getframerate wf = rate
  | SampleWidth => getnchannels wf = 1%N /\ getsampwidth wf <> 2%N /\ getframerate wf = rate
  | SampleRate => getnchannels wf = 1%N /\ getsampwidth wf = 2%N /\ getframerate wf <> rate
  end.

(** The two messages of the format check. *)
Definition only_pcm_message : string :=
  "Error: Without 'librosa', only 16-bit mono PCM WAV files are supported.".

Definition rate_message (wanted found : N) : string :=
  "Error: Audio must be " +:+ str_of_N wanted +:+ "Hz. This file is "
  +:+ str_of_N found +:+ "Hz.".

End Spec.

(** ** A scripted recogniser and a small platform *)

Module Toy.
Import Py Lib.

(** The state is the text heard since the last endpoint.  The first byte
    of a chunk decides: 0 is silence and closes an utterance, 255 makes the
    decoder fail, any other byte is heard as one character. *)
Definition accept (data : list byte) : M string bool :=
  fun pending =>
    match data with
    | [] => (Ret false, pending)
    | b :: _ =>
        if Byte.eqb b x00 then (Ret true, pending)
        else if Byte.eqb b xff
        then (Raise (Exception "Exception" "Failed to process waveform"), pending)
        else (Ret false, pending +:+ String (ascii_of_byte b) "")
    end.

#[export] Instance vosk : Vosk := {|
  Model := unit;
  KaldiRec := string;
  vosk_Model := fun _ _ => Ret tt;
  KaldiRecognizer := fun _ _ => Ret "";
  SetWords := fun _ => ret tt;
  AcceptWaveform := accept;
  Result := fun pending => (Ret {[ "text" := pending ]}, "");
  PartialResult := fun pending => (Ret {[ "partial" := pending ]}, pending);
  FinalResult := fun pending => (Ret {[ "text" := pending ]}, "")
|}.

(** A three-byte header (channels, bytes per sample, rate in kHz) and the
    frames. *)
Definition parse_wave (content : list byte) : outcome Wave_read :=
  match content with
  | nch :: sw :: khz :: data =>
      Ret {| getnchannels := Byte.to_N nch; getsampwidth := Byte.to_N sw;
             getcomptype := "NONE"; getframerate := 1000 * Byte.to_N khz;
             getnframes := N.of_nat (length data) / (Byte.to_N nch * Byte.to_N sw);
             wave_data := data |}
  | _ => Raise (Exception "EOFError" "")
  end.

Definition extension (path : string) : string * string := (path, ".wav").

(** No librosa: only the [wave] fallback. *)
Definition wave_only : Platform := {|
  VOSK_AVAILABLE := true;
  LIBROSA_AVAILABLE := false;
  librosa_load_int16 :=
    fun _ _ _ => Raise (Exception "NameError" "name 'librosa' is not defined");
  wave_open := parse_wave;
  os_path_splitext := extension
|}.

#[export] Instance microphone : SoundDevice := {|
  InputStream_enter := fun _ => Ret tt
|}.

(** One chunk (a quarter of a second) of the sample [x]. *)
Definition quarter (x : Z) : list Z := repeat x Testing_STT.chunk_size.

(** A mono 16-bit 16 kHz file with the given samples. *)
Definition wav (samples : list Z) : list byte := x01 :: x02 :: x10 :: tobytes samples.

Definition upload (content : list byte) : Testing_STT.UploadedFile :=
  {| Testing_STT.name := "speech.wav"; Testing_STT.read := Ret content |}.

(** An upload whose [read()] raises, as a closed file object does. *)
Definition closed_upload : Testing_STT.UploadedFile :=
  {| Testing_STT.name := "speech.wav";
     Testing_STT.read := Raise (Exception "ValueError" "I/O operation on closed file.") |}.

Definition loaded : Testing_STT.VoskSpeechRecognizer :=
  {| Testing_STT.model_path := "vosk-model-small-hi-0.22";
     Testing_STT.model := Some tt;
     Testing_STT.sample_rate := 16000 |}.

(** Recordings: "a", a long pause, "b", a pause. *)
Definition two_words : list Z :=
  quarter 97 ++ quarter 0 ++ quarter 0 ++ quarter 98 ++ quarter 0.

(** "a", a pause, then a chunk the decoder chokes on. *)
Definition broken : list Z := quarter 97 ++ quarter 0 ++ quarter 255.

(** The word "hi", still in flight when the audio ends. *)
Definition hi : list (list byte) := [[x68; x00]; [x69; x00]].

Definition silence : list byte := [x00; x00].

(** The page of [Hindi_STT.py] when the script has just been loaded, and
    right after a click on Start. *)
Definition idle : Hindi_STT.globals := Hindi_STT.initial "".

Definition listening : Hindi_STT.globals :=
  snd (Hindi_STT.page (Some Hindi_STT.StartListening) idle).




(** A [LiveVoskRecognizer] just built. *)
Definition live : Testing_STT.LiveVoskRecognizer :=
  {| Testing_STT.live_model := tt; Testing_STT.rec := ""; Testing_STT.transcript := "" |}.

Definition empty_disk : world := {| files := ∅; tmp_names := ["k3x9a"; "q07bz"] |}.

(** Three headers, each off in one property: 8 kHz, stereo, 8-bit. *)
Definition slow : Wave_read :=
  {| getnchannels := 1; getsampwidth := 2; getcomptype := "NONE";
     getframerate := 8000; getnframes := 0; wave_data := [] |}.

Definition stereo : Wave_read :=
  {| getnchannels := 2; getsampwidth := 2; getcomptype := "NONE";
     getframerate := 16000; getnframes := 0; wave_data := [] |}.

Definition narrow : Wave_read :=
  {| getnchannels := 1; getsampwidth := 1; getcomptype := "NONE";
     getframerate := 16000; getnframes := 0; wave_data := [] |}.

(** A header off in two properties: stereo at 8 kHz. *)
Definition stereo_slow : Wave_read :=
  {| getnchannels := 2; getsampwidth := 2; getcomptype := "NONE";
     getframerate := 8000; getnframes := 0; wave_data := [] |}.

(** A disk holding an 8 kHz file. *)
Definition slow_disk : world :=
  {| files := {[ "/tmp/tmpk3x9a.wav" := [x01; x02; x08] ]}; tmp_names := [] |}.

(** Disks holding a stereo 8 kHz file, and a mono 16 kHz file of two
    frames. *)
Definition stereo_disk : world :=
  {| files := {[ "/tmp/tmpk3x9a.wav" := [x02; x02; x08] ]}; tmp_names := [] |}.

Definition two_frames_disk : world :=
  {| files := {[ "/tmp/tmpk3x9a.wav" := [x01; x02; x10; x68; x00; xff; xff] ]};
     tmp_names := [] |}.

(** Uploads: one short sound, and the recording that breaks the decoder. *)
Definition short_file : Testing_STT.UploadedFile := upload (wav [104%Z]).

Definition broken_file : Testing_STT.UploadedFile := upload (wav broken).

(** An upload of a stereo 8 kHz file without frames. *)
Definition stereo_file : Testing_STT.UploadedFile := upload [x02; x02; x08].

(** A disk on which the first temporary name is already taken. *)
Definition busy_disk : world :=
  {| files := {[ "/tmp/tmpk3x9a.wav" := [x00] ]}; tmp_names := ["k3x9a"; "q07bz"] |}.

(** The page of [Testing_STT.py] with the model loaded and an earlier
    transcript on display. *)
Definition showing (earlier : string) : Testing_STT.session_state :=
  {| Testing_STT.vosk_recognizer := Some loaded;
     Testing_STT.model_loaded := true;
     Testing_STT.vosk_transcript := earlier |}.

(** A recogniser object whose model was never loaded. *)
Definition unloaded : Testing_STT.VoskSpeechRecognizer :=
  {| Testing_STT.model_path := "vosk-model-small-hi-0.22";
     Testing_STT.model := None;
     Testing_STT.sample_rate := 16000 |}.

(** A vosk whose model constructor refuses one directory. *)
Definition picky : Vosk := {|
  Model := unit;
  KaldiRec := string;
  vosk_Model := fun _ path =>
    if String.eqb path "broken-model"
    then Raise (Exception "Exception" "Failed to create a model")
    else Ret tt;
  KaldiRecognizer := fun _ _ => Ret "";
  SetWords := fun _ => ret tt;
  AcceptWaveform := accept;
  Result := fun pending => (Ret {[ "text" := pending ]}, "");
  PartialResult := fun pending => (Ret {[ "partial" := pending ]}, pending);
  FinalResult := fun pending => (Ret {[ "text" := pending ]}, "")
|}.

(** A disk with two model directories. *)
Definition model_disk : world :=
  {| files := {[ "vosk-model-small-hi-0.22" := []; "broken-model" := [] ]};
     tmp_names := ["k3x9a"; "q07bz"] |}.

(** A mono 16-bit 16 kHz file of two frames. *)
Definition two_frames : Wave_read :=
  {| getnchannels := 1; getsampwidth := 2; getcomptype := "NONE";
     getframerate := 16000; getnframes := 2; wave_data := [x68; x00; xff; xff] |}.

(** The page of [Testing_STT.py] over the picky vosk, with a model loaded
    earlier. *)
Definition picky_showing (earlier : string) : Testing_STT.session_state (H := picky) :=
  @Testing_STT.Build_session_state picky
    (Some (@Testing_STT.Build_VoskSpeechRecognizer picky
             "vosk-model-small-hi-0.22" (Some tt) 16000))
    true earlier.

(** The user types the broken directory, clicks Load, and has a file in
    the uploader. *)
Definition reload_broken : Testing_STT_page.inputs :=
  {| Testing_STT_page.model_path_input := "broken-model";
     Testing_STT_page.load_clicked := true;
     Testing_STT_page.uploaded_file := Some short_file;
     Testing_STT_page.transcribe_clicked := false |}.

End Toy.


(** * Properties *)

(** ** Strings and slices *)

Module PyFacts.
Import Py.

Lemma append_cons (x : ascii) (a b : string) : String x a +:+ b = String x (a +:+ b).
Proof. reflexivity. Qed.

Lemma append_nil_l (a : string) : "" +:+ a = a.
Proof. reflexivity. Qed.

Lemma append_assoc (a b c : string) : (a +:+ b) +:+ c = a +:+ (b +:+ c).
Proof.
  induction a as [|x a IH]; [reflexivity|].
  now rewrite !append_cons, IH.
Qed.

Lemma append_nil_r (a : string) : a +:+ "" = a.
Proof.
  induction a as [|x a IH]; [reflexivity|].
  now rewrite append_cons, IH.
Qed.

(** Joining with a separator is: every text but the last followed by
    the separator, then the last. *)
Lemma join_snoc (sep : string) (ts : list string) (f : string) :
  join sep (ts ++ [f]) = Spec.with_trailing sep ts +:+ f.
Proof.
  induction ts as [|t ts IH]; [reflexivity|].
  transitivity (t +:+ sep +:+ join sep (ts ++ [f])).
  - destruct ts; reflexivity.
  - rewrite IH. change (Spec.with_trailing sep (t :: ts))
      with (t +:+ sep +:+ Spec.with_trailing sep ts).
    now rewrite !append_assoc.
Qed.

Lemma with_trailing_app (sep : string) (ts us : list string) :
  Spec.with_trailing sep (ts ++ us)
  = Spec.with_trailing sep ts +:+ Spec.with_trailing sep us.
Proof.
  induction ts as [|t ts IH]; [reflexivity|].
  change (Spec.with_trailing sep ((t :: ts) ++ us))
    with (t +:+ sep +:+ Spec.with_trailing sep (ts ++ us)).
  change (Spec.with_trailing sep (t :: ts))
    with (t +:+ sep +:+ Spec.with_trailing sep ts).
  now rewrite IH, !append_assoc.
Qed.

Section Slices.
Context {A : Type}.
Implicit Types (a : list A) (cs k : nat).

Lemma slice_take_drop a i cs : slice a i (i + cs) = take cs (drop i a).
Proof. unfold slice. f_equal. lia. Qed.

Lemma range_lookup stop cs k i :
  range 0 stop cs !! k = Some i <-> i = k * cs /\ k < (stop + cs - 1) / cs.
Proof.
  unfold range. rewrite list_lookup_fmap, Nat.sub_0_r.
  destruct (seq 0 ((stop + cs - 1) / cs) !! k) as [j|] eqn:E; simpl.
  - apply lookup_seq in E as [-> ?]. split.
    + intros [= <-]. split; [lia | assumption].
    + intros [-> _]. reflexivity.
  - split; [discriminate|]. intros [_ Hk].
    apply lookup_ge_None in E. rewrite length_seq in E. lia.
Qed.

Lemma length_range stop cs : length (range 0 stop cs) = (stop + cs - 1) / cs.
Proof. unfold range. now rewrite length_fmap, length_seq, Nat.sub_0_r. Qed.

(** The first [k] slices of width [cs] make up the first [k * cs] items. *)
Lemma concat_slices a cs k :
  concat ((fun j => take cs (drop (j * cs) a)) <$> seq 0 k) = take (k * cs) a.
Proof.
  induction k as [|k IH]; [reflexivity|].
  rewrite seq_S, fmap_app, concat_app, IH. simpl.
  rewrite app_nil_r, take_take_drop. f_equal. lia.
Qed.

(** [ceil(n / cs)] slices cover [n] items, and one slice less does not. *)
Lemma ceil_div_bounds n cs :
  0 < cs -> n <= (n + cs - 1) / cs * cs /\ ((n + cs - 1) / cs - 1) * cs < n + (if n is 0 then 1 else 0).
Proof.
  intros Hcs.
  pose proof (Nat.div_mod_eq (n + cs - 1) cs) as E.
  pose proof (Nat.mod_upper_bound (n + cs - 1) cs ltac:(lia)) as B.
  set (m := (n + cs - 1) / cs) in *. set (r := (n + cs - 1) mod cs) in *.
  destruct n; split; nia.
Qed.

End Slices.
End PyFacts.

(** ** File mode: Testing_STT.py *)

Module FileMode.
Import Py Lib PyFacts Testing_STT.
Local Open Scope py_scope.

(** *** The chunk source *)

Lemma chunk_size_pos : 0 < chunk_size.
Proof. unfold chunk_size. lia. Qed.

Lemma chunks_of_slices (audio : list Z) :
  chunks_of audio
  = (fun k => take chunk_size (drop (k * chunk_size) audio))
      <$> seq 0 ((length audio + chunk_size - 1) / chunk_size).
Proof.
  unfold chunks_of, range. rewrite Nat.sub_0_r, <- list_fmap_compose.
  apply list_fmap_ext. intros _ k _. simpl. apply slice_take_drop.
Qed.

Lemma ceil_div_split (n cs : nat) :
  0 < cs ->
  (n + cs - 1) / cs = n / cs + (if n mod cs =? 0 then 0 else 1).
Proof.
  intros Hcs.
  pose proof (Nat.div_mod_eq n cs) as E.
  pose proof (Nat.mod_upper_bound n cs ltac:(lia)) as B.
  set (q := n / cs) in *. set (r := n mod cs) in *.
  destruct (Nat.eqb_spec r 0) as [Hr|Hr]; symmetry.
  - apply (Nat.div_unique _ _ _ (cs - 1)); lia.
  - apply (Nat.div_unique _ _ _ (r - 1)); lia.
Qed.

Lemma slice_lengths (audio : list Z) (cs : nat) :
  0 < cs ->
  (fun k => length (take cs (drop (k * cs) audio)))
    <$> seq 0 ((length audio + cs - 1) / cs)
  = replicate (length audio / cs) cs
    ++ (if length audio mod cs =? 0 then [] else [length audio mod cs]).
Proof.
  intros Hcs. rewrite (ceil_div_split _ _ Hcs).
  pose proof (Nat.div_mod_eq (length audio) cs) as E.
  pose proof (Nat.mod_upper_bound (length audio) cs ltac:(lia)) as B.
  set (q := length audio / cs) in *. set (r := length audio mod cs) in *.
  rewrite seq_app, fmap_app. f_equal.
  - apply list_eq. intros i. rewrite list_lookup_fmap.
    destruct (decide (i < q)) as [Hi|Hi].
    + rewrite lookup_seq_lt, lookup_replicate_2 by assumption. simpl.
      f_equal. rewrite length_take, length_drop. nia.
    + rewrite lookup_seq_ge by lia. symmetry. apply lookup_replicate_None. lia.
  - destruct (Nat.eqb_spec r 0) as [Hr|Hr]; [reflexivity|]. simpl.
    f_equal. rewrite length_take, length_drop. nia.
Qed.

(** C6.  The chunks handed to the recogniser are the consecutive
    [chunk_size]-wide slices of the decoded buffer, in order: the k-th one
    starts at sample [k * chunk_size]; put end to end they give the buffer
    back; all have [chunk_size] samples, except that a last, shorter one
    holds the remainder when the length is not a multiple of [chunk_size];
    past the last chunk the source has nothing more. *)
Theorem chunks_of_partition (audio : list Z) :
  chunks_of audio
  = (fun k => take chunk_size (drop (k * chunk_size) audio))
      <$> seq 0 (length (chunks_of audio))
  /\ concat (chunks_of audio) = audio
  /\ length <$> chunks_of audio
     = replicate (length audio / chunk_size) chunk_size
       ++ (if length audio mod chunk_size =? 0 then []
           else [length audio mod chunk_size])
  /\ forall k, chunks_of audio !! (length (chunks_of audio) + k) = None.
Proof.
  pose proof chunk_size_pos as Hcs.
  assert (length (chunks_of audio) = (length audio + chunk_size - 1) / chunk_size) as Hlen.
  { rewrite chunks_of_slices. now rewrite length_fmap, length_seq. }
  repeat split.
  - rewrite Hlen. apply chunks_of_slices.
  - rewrite chunks_of_slices, concat_slices. apply take_ge.
    apply (ceil_div_bounds (length audio) chunk_size Hcs).
  - rewrite chunks_of_slices, <- list_fmap_compose.
    apply (slice_lengths audio chunk_size Hcs).
  - intros k. apply lookup_ge_None_2. lia.
Qed.

(** *** The chunk loop and the texts it appends *)

Section Loop.
Context `{Vosk}.

Lemma for_chunks_cons (c : list Z) (chunks : list (list Z)) (t : string) (r : KaldiRec) :
  for_chunks (c :: chunks) t r
  = match AcceptWaveform (tobytes c) r with
    | (Ret true, r1) =>
        match Result r1 with
        | (Ret d, r2) => for_chunks chunks (t +:+ dict_get d "text" "" +:+ " ") r2
        | (Raise e, r2) => (Raise e, r2)
        end
    | (Ret false, r1) => for_chunks chunks t r1
    | (Raise e, r1) => (Raise e, r1)
    end.
Proof.
  cbn [for_chunks]. unfold bind.
  destruct (AcceptWaveform (tobytes c) r) as [[[|]|e] r1]; reflexivity.
Qed.

(** The loop appends, to the transcript it starts from, every [Final]
    text followed by one space, and leaves the recogniser where the feed
    left it; when the feed fails, so does the loop, with the same
    exception. *)
Lemma for_chunks_texts (chunks : list (list Z)) (t : string) (r : KaldiRec) :
  match Spec.final_texts false (tobytes <$> chunks) r with
  | (ts, Ret r1) => for_chunks chunks t r = (Ret (t +:+ Spec.with_trailing " " ts), r1)
  | (_, Raise e) => fst (for_chunks chunks t r) = Raise e
  end.
Proof.
  revert t r. induction chunks as [|c chunks IH]; intros t r.
  - simpl. unfold ret. now rewrite append_nil_r.
  - rewrite fmap_cons, for_chunks_cons. cbn [Spec.final_texts].
    destruct (AcceptWaveform (tobytes c) r) as [[[|]|e] r1]; [| |reflexivity].
    + destruct (Result r1) as [[d|e] r2]; [|reflexivity].
      specialize (IH (t +:+ dict_get d "text" "" +:+ " ") r2).
      destruct (Spec.final_texts false (tobytes <$> chunks) r2) as [ts [r3|e]].
      * rewrite IH. f_equal. f_equal.
        change (Spec.with_trailing " " (dict_get d "text" "" :: ts))
          with (dict_get d "text" "" +:+ " " +:+ Spec.with_trailing " " ts).
        now rewrite !append_assoc.
      * exact IH.
    + apply IH.
Qed.

Lemma process_run (a : list byte) (self : LiveVoskRecognizer) :
  process a self
  = match AcceptWaveform a (rec self) with
    | (Ret true, r1) =>
        match Result r1 with
        | (Ret d, r2) =>
            let t := transcript self +:+ dict_get d "text" "" +:+ " " in
            (Ret t, {| live_model := live_model self; rec := r2; transcript := t |})
        | (Raise e, r2) => (Raise e, set_rec r2 (set_rec r1 self))
        end
    | (Ret false, r1) =>
        match PartialResult r1 with
        | (Ret _, r2) => (Ret (transcript self), set_rec r2 (set_rec r1 self))
        | (Raise e, r2) => (Raise e, set_rec r2 (set_rec r1 self))
        end
    | (Raise e, r1) => (Raise e, set_rec r1 self)
    end.
Proof.
  unfold process, bind, zoom.
  destruct (AcceptWaveform a (rec self)) as [[[|]|e] r1]; simpl; [| |reflexivity].
  - destruct (Result r1) as [[d|e] r2]; reflexivity.
  - destruct (PartialResult r1) as [[d|e] r2]; reflexivity.
Qed.

(** The same for [process], called frame after frame. *)
Lemma process_each_texts (frames : list (list byte)) (self : LiveVoskRecognizer) :
  transcript (snd (process_each frames self))
  = transcript self
    +:+ Spec.with_trailing " " (fst (Spec.final_texts true frames (rec self))).
Proof.
  revert self. induction frames as [|a frames IH]; intros self.
  - simpl. now rewrite append_nil_r.
  - cbn [process_each Spec.final_texts]. unfold bind. rewrite process_run.
    destruct (AcceptWaveform a (rec self)) as [[[|]|e] r1]; simpl.
    + destruct (Result r1) as [[d|e] r2]; simpl.
      * rewrite IH. simpl.
        destruct (Spec.final_texts true frames r2) as [ts o]. simpl.
        change (Spec.with_trailing " " (dict_get d "text" "" :: ts))
          with (dict_get d "text" "" +:+ " " +:+ Spec.with_trailing " " ts).
        now rewrite !append_assoc.
      * now rewrite append_nil_r.
    + destruct (PartialResult r1) as [[d|e] r2]; simpl.
      * rewrite IH. reflexivity.
      * now rewrite append_nil_r.
    + now rewrite append_nil_r.
Qed.

End Loop.

(** *** One call of [transcribe_audio_file], step by step *)

Section Call.
Context `{Vosk} `{Platform}.

Lemma recognize_finals (m : Model) (rate : N) (audio : list Z) :
  recognize m rate audio
  = match Spec.session_finals m rate audio with
    | Ret ts => Ret (strip (join " " ts))
    | Raise e => Raise e
    end.
Proof.
  unfold recognize, Spec.session_finals.
  destruct (KaldiRecognizer m rate) as [r0|e]; [|reflexivity].
  unfold bind at 1. destruct (SetWords true r0) as [[[]|e] r0']; [|reflexivity].
  unfold bind at 1.
  pose proof (for_chunks_texts (chunks_of audio) "" r0') as L.
  destruct (Spec.final_texts false (tobytes <$> chunks_of audio) r0') as [ts [r1|e]].
  - rewrite L. unfold bind, ret, Spec.flushed_text.
    destruct (FinalResult r1) as [[d|e] r2]; [|reflexivity].
    simpl. now rewrite join_snoc, append_nil_l.
  - destruct (for_chunks (chunks_of audio) "" r0') as [o r1].
    simpl in L. now subst o.
Qed.

Lemma load_audio_reads (self : VoskSpeechRecognizer) (path : string) (w : world) :
  snd (load_audio self path w) = w.
Proof.
  unfold load_audio, bind, open_rb, lift, ret.
  destruct LIBROSA_AVAILABLE; destruct (files w !! path) as [content|]; try reflexivity.
  - now destruct (librosa_load_int16 path content (sample_rate self)).
  - now destruct (wave_open content).
Qed.

Lemma mkstemp_Some (fs : gmap string (list byte)) (names : list string) (suffix p : string)
    (names' : list string) :
  mkstemp fs names suffix = Some (p, names') ->
  fs !! p = None /\ exists n, p = tmp_path n suffix.
Proof.
  induction names as [|n names IH]; [discriminate|]. simpl.
  case_bool_decide as Hn.
  - exact IH.
  - intros [= <- <-]. split; [|now exists n].
    destruct (fs !! tmp_path n suffix) eqn:E; [|reflexivity].
    exfalso. apply Hn. now exists l.
Qed.

Lemma NamedTemporaryFile_Ret (suffix p : string) (w w1 : world) :
  NamedTemporaryFile suffix w = (Ret p, w1) ->
  files w !! p = None /\ files w1 = <[p := []]> (files w) /\ truthy p = true.
Proof.
  unfold NamedTemporaryFile.
  destruct (mkstemp (files w) (tmp_names w) suffix) as [[q names']|] eqn:E; [|discriminate].
  intros [= <- <-]. apply mkstemp_Some in E as [Hq [n ->]].
  repeat split; assumption || reflexivity.
Qed.

Lemma NamedTemporaryFile_Raise (suffix : string) (e : exn) (w w1 : world) :
  NamedTemporaryFile suffix w = (Raise e, w1) -> w1 = w.
Proof.
  unfold NamedTemporaryFile.
  destruct (mkstemp (files w) (tmp_names w) suffix) as [[q names']|]; [discriminate|].
  now intros [= _ <-].
Qed.

(** The stage before recognition. *)
Lemma decode_upload_run (self : VoskSpeechRecognizer) (f : UploadedFile) (w : world) :
  decode_upload self f (entry w)
  = match NamedTemporaryFile (file_extension f) w with
    | (Raise e, w1) => (Raise e, {| disk := w1; tmp_file_path := None |})
    | (Ret p, w1) =>
        match read f with
        | Raise e => (Raise e, {| disk := w1; tmp_file_path := None |})
        | Ret data =>
            let w2 := set_files (insert p data) w1 in
            (fst (load_audio self p w2), {| disk := w2; tmp_file_path := Some p |})
        end
    end.
Proof.
  unfold decode_upload, bind, on_disk, zoom, lift, set_tmp_file_path, file_write, modify.
  simpl.
  destruct (NamedTemporaryFile (file_extension f) w) as [[p|e] w1]; [|reflexivity].
  destruct (read f) as [data|e]; [|reflexivity]. simpl.
  pose proof (load_audio_reads self p (set_files (insert p data) w1)) as L.
  destruct (load_audio self p (set_files (insert p data) w1)) as [o w3].
  simpl in L. now subst w3.
Qed.

(** A whole call, with the model loaded. *)
Lemma transcribe_audio_file_run (self : VoskSpeechRecognizer) (m : Model)
    (f : UploadedFile) (w : world) :
  model self = Some m ->
  transcribe_audio_file self f w
  = match NamedTemporaryFile (file_extension f) w with
    | (Raise e, w1) => (Ret "Error during transcription.", w1)
    | (Ret p, w1) =>
        match read f with
        | Raise e => (Ret "Error during transcription.", w1)
        | Ret data =>
            let w2 := set_files (insert p data) w1 in
            (Ret (Spec.answer m (sample_rate self) (fst (load_audio self p w2))),
             set_files (delete p) w2)
        end
    end.
Proof.
  intros Hm. unfold transcribe_audio_file. rewrite Hm.
  unfold try_finally, try_except, try_block, bind at 1.
  rewrite decode_upload_run.
  destruct (NamedTemporaryFile (file_extension f) w) as [[p|e] w1] eqn:E; [|reflexivity].
  apply NamedTemporaryFile_Ret in E as (_ & _ & Hp).
  destruct (read f) as [data|e]; [|reflexivity].
  cbv zeta.
  assert (forall o : outcome string,
    match finally_block {| disk := set_files (insert p data) w1; tmp_file_path := Some p |} with
    | (Ret _, fr) => (o, fr)
    | (Raise e, fr) => (Raise e, fr)
    end = (o, {| disk := set_files (delete p) (set_files (insert p data) w1);
                 tmp_file_path := Some p |})) as Hfin.
  { intros o. unfold finally_block, bind, get, on_disk, zoom, os_unlink. simpl.
    rewrite Hp. unfold os_path_exists, set_files. simpl.
    rewrite lookup_insert_eq. simpl. rewrite lookup_insert_eq. reflexivity. }
  destruct (load_audio self p (set_files (insert p data) w1)) as [[[msg|a]|e] w3]; simpl.
  - unfold ret. now rewrite Hfin.
  - unfold lift, except_block, ret.
    destruct (recognize m (sample_rate self) a) as [t|e]; simpl; now rewrite Hfin.
  - unfold except_block, ret. now rewrite Hfin.
Qed.

Lemma finally_block_Ret (fr : frame) : fst (finally_block fr) = Ret tt.
Proof.
  unfold finally_block, bind, get, ret, on_disk, zoom, os_unlink.
  destruct (tmp_file_path fr) as [path|]; [|reflexivity].
  destruct (truthy path); [|reflexivity]. simpl.
  destruct (os_path_exists (disk fr) path) eqn:E; [|reflexivity].
  now rewrite E.
Qed.

(** A call never raises: a loaded recogniser answers with what the [try]
    block returned, or with the fixed message when it raised. *)
Lemma transcribe_audio_file_reports (self : VoskSpeechRecognizer) (f : UploadedFile)
    (w : world) :
  fst (transcribe_audio_file self f w)
  = Ret match model self with
        | None => "Error: Vosk model is not loaded."
        | Some m => Spec.reported (fst (try_block self m f (entry w)))
        end.
Proof.
  unfold transcribe_audio_file.
  destruct (model self) as [m|]; [|reflexivity].
  unfold try_finally, try_except.
  destruct (try_block self m f (entry w)) as [[t|e] fr]; simpl.
  - pose proof (finally_block_Ret fr) as F.
    destruct (finally_block fr) as [[[]|e] fr']; [reflexivity|discriminate].
  - unfold except_block, ret.
    pose proof (finally_block_Ret fr) as F.
    destruct (finally_block fr) as [[[]|e'] fr']; [reflexivity|discriminate].
Qed.

Lemma try_block_decoded (self : VoskSpeechRecognizer) (m : Model) (f : UploadedFile)
    (fr : frame) (loaded : string + list Z) :
  fst (decode_upload self f fr) = Ret loaded ->
  fst (try_block self m f fr)
  = match loaded with
    | inl message => Ret message
    | inr audio_int16 => recognize m (sample_rate self) audio_int16
    end.
Proof.
  intros D. unfold try_block, bind.
  destruct (decode_upload self f fr) as [o fr']. simpl in D. subst o.
  now destruct loaded.
Qed.

Lemma recognize_chunks (m : Model) (rate : N) (a1 a2 : list Z) :
  chunks_of a1 = chunks_of a2 -> recognize m rate a1 = recognize m rate a2.
Proof. intros E. unfold recognize. now rewrite E. Qed.

(** The format check: what it refuses, and with which message. *)
Lemma wave_fallback_refuses (self : VoskSpeechRecognizer) (wf : Wave_read) :
  getnchannels wf <> 1%N \/ getsampwidth wf <> 2%N \/ getcomptype wf <> "NONE" ->
  wave_fallback self wf = Ret (inl Spec.only_pcm_message).
Proof.
  unfold wave_fallback.
  destruct (N.eqb_spec (getnchannels wf) 1) as [Hc|Hc]; [|reflexivity].
  destruct (N.eqb_spec (getsampwidth wf) 2) as [Hs|Hs]; [|reflexivity].
  destruct (String.eqb_spec (getcomptype wf) "NONE") as [Ht|Ht]; [|reflexivity].
  intros [E|[E|E]]; contradiction.
Qed.

Lemma wave_fallback_rate (self : VoskSpeechRecognizer) (wf : Wave_read) :
  getnchannels wf = 1%N -> getsampwidth wf = 2%N -> getcomptype wf = "NONE" ->
  getframerate wf <> sample_rate self ->
  wave_fallback self wf
  = Ret (inl (Spec.rate_message (sample_rate self) (getframerate wf))).
Proof.
  intros Hc Hs Ht Hr. unfold wave_fallback. rewrite Hc, Hs, Ht. simpl.
  destruct (N.eqb_spec (getframerate wf) (sample_rate self)) as [E|E];
    [contradiction|reflexivity].
Qed.

Lemma wave_fallback_message (self : VoskSpeechRecognizer) (wf : Wave_read)
    (message : string) :
  wave_fallback self wf = Ret (inl message) -> String.prefix "Error" message = true.
Proof.
  unfold wave_fallback. destruct (_ || _).
  - now intros [= <-].
  - destruct (negb _).
    + intros [= <-]. reflexivity.
    + destruct (frombuffer_int16 _); discriminate.
Qed.

(** A message in place of the samples comes from the format check, and
    only when librosa is missing. *)
Lemma load_audio_message (self : VoskSpeechRecognizer) (path : string) (w : world)
    (message : string) :
  fst (load_audio self path w) = Ret (inl message) ->
  LIBROSA_AVAILABLE = false /\ exists wf, wave_fallback self wf = Ret (inl message).
Proof.
  unfold load_audio, bind, open_rb, lift, ret.
  destruct LIBROSA_AVAILABLE; destruct (files w !! path) as [content|]; try discriminate.
  - now destruct (librosa_load_int16 path content (sample_rate self)).
  - destruct (wave_open content) as [wf|e]; [|discriminate].
    simpl. intros E. split; [reflexivity|]. exists wf.
    now destruct (wave_fallback self wf).
Qed.

Lemma decode_upload_message (self : VoskSpeechRecognizer) (f : UploadedFile) (w : world)
    (message : string) :
  fst (decode_upload self f (entry w)) = Ret (inl message) ->
  LIBROSA_AVAILABLE = false /\ exists wf, wave_fallback self wf = Ret (inl message).
Proof.
  rewrite decode_upload_run.
  destruct (NamedTemporaryFile (file_extension f) w) as [[p|e] w1]; [|discriminate].
  destruct (read f) as [data|e]; [|discriminate].
  cbv zeta. cbn [fst]. apply load_audio_message.
Qed.

(** Without librosa, a call on an upload that could be staged answers
    with what the format check and the recogniser make of the header and
    the frames of the upload. *)
Lemma transcribe_audio_file_staged (self : VoskSpeechRecognizer) (m : Model)
    (f : UploadedFile) (w w1 : world) (p : string) (data : list byte) (wf : Wave_read) :
  model self = Some m ->
  LIBROSA_AVAILABLE = false ->
  NamedTemporaryFile (file_extension f) w = (Ret p, w1) ->
  read f = Ret data ->
  wave_open data = Ret wf ->
  fst (transcribe_audio_file self f w)
  = Ret (Spec.answer m (sample_rate self) (wave_fallback self wf)).
Proof.
  intros Hm HL E Hr Hw. rewrite (transcribe_audio_file_run _ _ _ _ Hm), E, Hr.
  cbv zeta. cbn [fst]. do 2 f_equal.
  unfold load_audio, bind, open_rb, lift. rewrite HL.
  unfold set_files. cbn [files]. rewrite lookup_insert_eq, Hw.
  now destruct (wave_fallback self wf).
Qed.

(** The temporary file stays, empty, when [read()] raises. *)
Lemma temp_file_left (self : VoskSpeechRecognizer) (m : Model) (f : UploadedFile)
    (w w1 : world) (e : exn) (p : string) :
  model self = Some m ->
  read f = Raise e ->
  NamedTemporaryFile (file_extension f) w = (Ret p, w1) ->
  transcribe_audio_file self f w = (Ret "Error during transcription.", w1)
  /\ files w !! p = None /\ files w1 !! p = Some [].
Proof.
  intros Hm Hr E. rewrite (transcribe_audio_file_run _ _ _ _ Hm), E, Hr.
  apply NamedTemporaryFile_Ret in E as (Hp & Hw1 & _).
  repeat split; [assumption|]. rewrite Hw1. apply lookup_insert_eq.
Qed.

End Call.

End FileMode.

(** ** Live mode: Hindi_STT.py *)

Module LiveMode.
Import Py Lib PyFacts Hindi_STT.
Local Open Scope py_scope.

Section Loop.
Context `{Vosk}.

Lemma loop_body_run (data : list byte) (g : globals) :
  loop_body data g
  = match AcceptWaveform data (rec g) with
    | (Ret true, r1) =>
        match Result r1 with
        | (Ret d, r2) =>
            (Ret tt,
             if truthy (dict_get d "text" "")
             then set_final_text (final_text g +:+ dict_get d "text" "" +:+ " ") (set_rec r2 g)
             else set_rec r2 g)
        | (Raise e, r2) => (Raise e, set_rec r2 g)
        end
    | (Ret false, r1) =>
        match PartialResult r1 with
        | (Ret _, r2) => (Ret tt, set_rec r2 g)
        | (Raise e, r2) => (Raise e, set_rec r2 g)
        end
    | (Raise e, r1) => (Raise e, set_rec r1 g)
    end.
Proof.
  unfold loop_body, bind, zoom, dict_get.
  destruct (AcceptWaveform data (rec g)) as [[[|]|e] r1]; simpl; [| |reflexivity].
  - destruct (Result r1) as [[d|e] r2]; simpl; [|reflexivity].
    destruct (d !! "text") as [text|]; simpl; [|reflexivity].
    destruct (truthy text); reflexivity.
  - destruct (PartialResult r1) as [[d|e] r2]; reflexivity.
Qed.

Lemma set_keep_listening_id (g : globals) :
  set_keep_listening (keep_listening g) g = g.
Proof. now destruct g. Qed.

(** Once the flag is down the loop takes no chunk. *)
Lemma while_stopped (sched : list event) (g : globals) :
  keep_listening g = false -> while_keep_listening sched g = (Ret tt, g).
Proof.
  intros Hk. induction sched as [|[data|] sched IH]; simpl.
  - reflexivity.
  - unfold bind, get. now rewrite Hk.
  - unfold bind, modify. rewrite <- Hk at 1. now rewrite set_keep_listening_id.
Qed.

Lemma while_app (s1 s2 : list event) (g : globals) :
  while_keep_listening (s1 ++ s2) g
  = match while_keep_listening s1 g with
    | (Ret _, g') => while_keep_listening s2 g'
    | (Raise e, g') => (Raise e, g')
    end.
Proof.
  revert g. induction s1 as [|[data|] s1 IH]; intros g; simpl.
  - reflexivity.
  - unfold bind at 1 3, get. destruct (keep_listening g) eqn:Hk.
    + unfold bind. destruct (loop_body data g) as [[[]|e] g1]; [apply IH|reflexivity].
    + unfold ret. symmetry. now apply while_stopped.
  - unfold bind, modify. apply IH.
Qed.

Lemma while_cons_chunk (data : list byte) (sched : list event) (g : globals) :
  keep_listening g = true ->
  while_keep_listening (Chunk data :: sched) g
  = match loop_body data g with
    | (Ret _, g1) => while_keep_listening sched g1
    | (Raise e, g1) => (Raise e, g1)
    end.
Proof.
  intros Hk. cbn [while_keep_listening]. unfold bind at 1, get. rewrite Hk.
  unfold bind. now destruct (loop_body data g) as [[[]|e] g1].
Qed.

(** The loop over chunks alone: the recogniser ends where the feed
    leaves it and the transcript gains every non-empty [Final] text, each
    followed by one space. *)
Lemma while_chunks_run (chunks : list (list byte)) (g : globals) :
  keep_listening g = true ->
  match Spec.final_texts true chunks (rec g) with
  | (ts, Ret r1) =>
      while_keep_listening (Chunk <$> chunks) g
      = (Ret tt, set_final_text
                   (final_text g +:+ Spec.with_trailing " " (List.filter truthy ts))
                   (set_rec r1 g))
  | (ts, Raise e) =>
      fst (while_keep_listening (Chunk <$> chunks) g) = Raise e
      /\ final_text (snd (while_keep_listening (Chunk <$> chunks) g))
         = final_text g +:+ Spec.with_trailing " " (List.filter truthy ts)
  end.
Proof.
  revert g. induction chunks as [|data chunks IH]; intros g Hk.
  - simpl. unfold ret. rewrite append_nil_r. now destruct g.
  - rewrite fmap_cons, (while_cons_chunk _ _ _ Hk), loop_body_run.
    cbn [Spec.final_texts].
    destruct (AcceptWaveform data (rec g)) as [[[|]|e] r1].
    + destruct (Result r1) as [[d|e] r2].
      * destruct (truthy (dict_get d "text" "")) eqn:Ht.
        -- specialize (IH (set_final_text (final_text g +:+ dict_get d "text" "" +:+ " ")
                             (set_rec r2 g)) Hk).
           simpl in IH.
           destruct (Spec.final_texts true chunks r2) as [ts [r3|e]]; simpl; rewrite Ht.
           ++ rewrite IH. cbn [List.filter].
              change (Spec.with_trailing " " (dict_get d "text" "" :: List.filter truthy ts))
                with (dict_get d "text" "" +:+ " "
                      +:+ Spec.with_trailing " " (List.filter truthy ts)).
              now rewrite !append_assoc.
           ++ destruct IH as [IH1 IH2]. split; [exact IH1|]. rewrite IH2.
              change (Spec.with_trailing " " (dict_get d "text" "" :: List.filter truthy ts))
                with (dict_get d "text" "" +:+ " "
                      +:+ Spec.with_trailing " " (List.filter truthy ts)).
              now rewrite !append_assoc.
        -- specialize (IH (set_rec r2 g) Hk). simpl in IH.
           destruct (Spec.final_texts true chunks r2) as [ts [r3|e]]; simpl; rewrite Ht;
             exact IH.
      * simpl. now rewrite append_nil_r.
    + destruct (PartialResult r1) as [[d|e] r2].
      * specialize (IH (set_rec r2 g) Hk). simpl in IH.
        destruct (Spec.final_texts true chunks r2) as [ts [r3|e]]; exact IH.
      * simpl. now rewrite append_nil_r.
    + simpl. now rewrite append_nil_r.
Qed.

(** Chunks, then Stop: the transcript is the one the chunks left. *)
Lemma while_chunks_then_stop_text (chunks : list (list byte)) (sched : list event)
    (g : globals) :
  keep_listening g = true ->
  final_text (snd (while_keep_listening ((Chunk <$> chunks) ++ StopRequest :: sched) g))
  = final_text g
    +:+ Spec.with_trailing " "
          (List.filter truthy (fst (Spec.final_texts true chunks (rec g)))).
Proof.
  intros Hk. rewrite while_app.
  pose proof (while_chunks_run chunks g Hk) as L.
  destruct (Spec.final_texts true chunks (rec g)) as [ts [r1|e]].
  - rewrite L. cbn [while_keep_listening]. unfold bind at 1, modify.
    now rewrite while_stopped.
  - destruct L as [L1 L2].
    destruct (while_keep_listening (Chunk <$> chunks) g) as [o g'].
    simpl in L1, L2. now subst o.
Qed.

End Loop.

End LiveMode.

(** ** The claims *)

Module Claims.
Import Py Lib PyFacts.
Local Open Scope py_scope.

(** *** Transcript contents *)

(** C1, as amended.  In file mode the text returned is the [Final] texts
    of the session in emission order (one per endpoint, then the one flushed
    at the end), each once, joined by single spaces, with the white space
    at both ends stripped; when the session fails the failure is what comes
    out.  In live mode nothing is flushed and every text appended is followed
    by one space: [LiveVoskRecognizer.process] appends every [Final] text,
    the capture loop of [Hindi_STT.py] the non-empty ones, and that is the
    transcript once Stop has been seen. *)
Theorem transcript_joins_finals `{Vosk} (m : Model) (rate : N) (audio : list Z)
    (frames : list (list byte)) (self : Testing_STT.LiveVoskRecognizer)
    (sched : list Hindi_STT.event) (g : Hindi_STT.globals) :
  Hindi_STT.keep_listening g = true ->
  Testing_STT.recognize m rate audio
  = match Spec.session_finals m rate audio with
    | Ret ts => Ret (strip (join " " ts))
    | Raise e => Raise e
    end
  /\ Testing_STT.transcript (snd (Testing_STT.process_each frames self))
     = Testing_STT.transcript self
       +:+ Spec.with_trailing " "
             (fst (Spec.final_texts true frames (Testing_STT.rec self)))
  /\ Hindi_STT.final_text
       (snd (Hindi_STT.while_keep_listening
               ((Hindi_STT.Chunk <$> frames) ++ Hindi_STT.StopRequest :: sched) g))
     = Hindi_STT.final_text g
       +:+ Spec.with_trailing " "
             (List.filter truthy (fst (Spec.final_texts true frames (Hindi_STT.rec g)))).
Proof.
  intros Hk. split; [|split].
  - apply FileMode.recognize_finals.
  - apply FileMode.process_each_texts.
  - now apply LiveMode.while_chunks_then_stop_text.
Qed.

Lemma transcript_joins_finals_witness :
  Hindi_STT.keep_listening Toy.listening = true
  /\ Testing_STT.recognize (H := Toy.vosk) tt 16000 Toy.two_words = Ret "a  b"
  /\ Testing_STT.transcript
       (snd (Testing_STT.process_each
               [[x61; x00]; Toy.silence; Toy.silence; [x62; x00]; Toy.silence] Toy.live))
     = "a  b "
  /\ Hindi_STT.final_text
       (snd (Hindi_STT.while_keep_listening
               ((Hindi_STT.Chunk
                   <$> [[x61; x00]; Toy.silence; Toy.silence; [x62; x00]; Toy.silence])
                ++ [Hindi_STT.StopRequest]) Toy.listening))
     = "a b ".
Proof.
  split; [reflexivity|].
  destruct (@transcript_joins_finals Toy.vosk tt 16000%N Toy.two_words
              [[x61; x00]; Toy.silence; Toy.silence; [x62; x00]; Toy.silence]
              Toy.live [] Toy.listening eq_refl) as (F & P & L).
  split; [|split].
  - rewrite F. vm_compute. reflexivity.
  - rewrite P. reflexivity.
  - rewrite L. reflexivity.
Defined.

(** C1, as stated, fails on the recording "a", long pause, "b", pause:
    the session emits the texts "a", "", "b" and "", the file transcript is
    "a  b", which is neither the four texts joined by single spaces nor the
    two non-empty ones joined by a single space. *)
Lemma joined_finals_counterexample :
  Spec.session_finals (H := Toy.vosk) tt 16000 Toy.two_words = Ret ["a"; ""; "b"; ""]
  /\ fst (Testing_STT.transcribe_audio_file (H0 := Toy.wave_only) Toy.loaded
            (Toy.upload (Toy.wav Toy.two_words)) Toy.empty_disk)
     = Ret "a  b"
  /\ "a  b" <> join " " ["a"; ""; "b"; ""]
  /\ "a  b" <> join " " ["a"; "b"].
Proof. repeat split; try (vm_compute; reflexivity); vm_compute; discriminate. Qed.

(** C10.  While the flag is up, the capture loop leaves in [final_text]
    what was there followed by the non-empty [Final] texts, in order, each
    with one trailing space; a [Final] whose text is empty adds nothing.
    [listen_audio] does the same once the input stream is open, and changes
    nothing when it cannot be opened. *)
Theorem listen_keeps_nonempty_finals `{Vosk} `{SoundDevice} (chunks : list (list byte))
    (g : Hindi_STT.globals) :
  Hindi_STT.keep_listening g = true ->
  Hindi_STT.final_text
    (snd (Hindi_STT.while_keep_listening (Hindi_STT.Chunk <$> chunks) g))
  = Hindi_STT.final_text g
    +:+ Spec.with_trailing " "
          (List.filter truthy (fst (Spec.final_texts true chunks (Hindi_STT.rec g))))
  /\ Hindi_STT.final_text (snd (Hindi_STT.listen_audio (Hindi_STT.Chunk <$> chunks) g))
     = match InputStream_enter Hindi_STT.samplerate with
       | Ret _ =>
           Hindi_STT.final_text g
           +:+ Spec.with_trailing " "
                 (List.filter truthy
                    (fst (Spec.final_texts true chunks (Hindi_STT.rec g))))
       | Raise _ => Hindi_STT.final_text g
       end.
Proof.
  intros Hk.
  pose proof (LiveMode.while_chunks_run chunks g Hk) as L.
  assert (Hindi_STT.final_text
            (snd (Hindi_STT.while_keep_listening (Hindi_STT.Chunk <$> chunks) g))
          = Hindi_STT.final_text g
            +:+ Spec.with_trailing " "
                  (List.filter truthy
                     (fst (Spec.final_texts true chunks (Hindi_STT.rec g))))) as E.
  { destruct (Spec.final_texts true chunks (Hindi_STT.rec g)) as [ts [r1|e]].
    - now rewrite L.
    - apply L. }
  split; [exact E|].
  unfold Hindi_STT.listen_audio, bind, lift.
  destruct (InputStream_enter Hindi_STT.samplerate); [exact E|reflexivity].
Qed.

Lemma listen_keeps_nonempty_finals_witness :
  Hindi_STT.keep_listening Toy.listening = true
  /\ Hindi_STT.final_text
       (snd (Hindi_STT.while_keep_listening
               (Hindi_STT.Chunk <$> Toy.hi ++ [Toy.silence; Toy.silence]) Toy.listening))
     = "hi ".
Proof.
  split; [reflexivity|].
  destruct (@listen_keeps_nonempty_finals Toy.vosk Toy.microphone
              (Toy.hi ++ [Toy.silence; Toy.silence]) Toy.listening eq_refl) as [E _].
  rewrite E. vm_compute. reflexivity.
Defined.

(** *** Session life cycle *)







(** *** Opening a file without librosa *)

Section Formats.
Context `{Vosk} `{Platform}.

(** C4, as amended.  Without librosa a file is decoded only if it is
    mono, 16-bit, uncompressed and at the recogniser's rate, and every such
    file goes on to the decoding of its frames.  A file whose channel count,
    sample width or compression type is wrong is refused, whatever its rate,
    with one and the same message, which lists the format wanted and does
    not tell which property is wrong.  A file that is off in its rate alone
    is refused with a message of its own, giving the rate wanted and the
    rate found. *)
Theorem wave_fallback_accepts_and_reports (self : Testing_STT.VoskSpeechRecognizer)
    (wf : Wave_read) (path : string) (content : list byte) (w : world) :
  LIBROSA_AVAILABLE = false ->
  files w !! path = Some content ->
  wave_open content = Ret wf ->
  Testing_STT.load_audio self path w = (Testing_STT.wave_fallback self wf, w)
  /\ (forall audio, Testing_STT.wave_fallback self wf = Ret (inr audio) ->
        getnchannels wf = 1%N /\ getsampwidth wf = 2%N /\ getcomptype wf = "NONE"
        /\ getframerate wf = Testing_STT.sample_rate self)
  /\ (getnchannels wf = 1%N -> getsampwidth wf = 2%N -> getcomptype wf = "NONE" ->
      getframerate wf = Testing_STT.sample_rate self ->
        Testing_STT.wave_fallback self wf
        = match frombuffer_int16 (readframes wf (getnframes wf)) with
          | Ret audio => Ret (inr audio)
          | Raise e => Raise e
          end)
  /\ (getnchannels wf <> 1%N \/ getsampwidth wf <> 2%N \/ getcomptype wf <> "NONE" ->
        Testing_STT.wave_fallback self wf = Ret (inl Spec.only_pcm_message))
  /\ (getnchannels wf = 1%N -> getsampwidth wf = 2%N -> getcomptype wf = "NONE" ->
      getframerate wf <> Testing_STT.sample_rate self ->
        Testing_STT.wave_fallback self wf
        = Ret (inl (Spec.rate_message (Testing_STT.sample_rate self) (getframerate wf))))
  /\ Spec.rate_message (Testing_STT.sample_rate self) (getframerate wf)
     <> Spec.only_pcm_message.
Proof.
  intros HL Hf Hw. split; [|split; [|split; [|split; [|split]]]].
  - unfold Testing_STT.load_audio, bind, open_rb, lift. now rewrite HL, Hf, Hw.
  - unfold Testing_STT.wave_fallback. intros audio.
    destruct (N.eqb_spec (getnchannels wf) 1) as [Hc|Hc]; [|discriminate].
    destruct (N.eqb_spec (getsampwidth wf) 2) as [Hs|Hs]; [|discriminate].
    destruct (String.eqb_spec (getcomptype wf) "NONE") as [Ht|Ht]; [|discriminate].
    destruct (N.eqb_spec (getframerate wf) (Testing_STT.sample_rate self)) as [Hr|Hr];
      [|discriminate].
    intros _. repeat split; assumption.
  - intros Hc Hs Ht Hr. unfold Testing_STT.wave_fallback.
    rewrite Hc, Hs, Ht, Hr. simpl. now rewrite N.eqb_refl.
  - unfold Testing_STT.wave_fallback.
    destruct (N.eqb_spec (getnchannels wf) 1) as [Hc|Hc]; [|reflexivity].
    destruct (N.eqb_spec (getsampwidth wf) 2) as [Hs|Hs]; [|reflexivity].
    destruct (String.eqb_spec (getcomptype wf) "NONE") as [Ht|Ht]; [|reflexivity].
    intros [E|[E|E]]; contradiction.
  - intros Hc Hs Ht Hr. unfold Testing_STT.wave_fallback.
    rewrite Hc, Hs, Ht. simpl.
    destruct (N.eqb_spec (getframerate wf) (Testing_STT.sample_rate self)) as [E|E];
      [contradiction|reflexivity].
  - unfold Spec.rate_message, Spec.only_pcm_message. rewrite !append_cons. discriminate.
Qed.

End Formats.

Lemma wave_fallback_accepts_and_reports_witness :
  Testing_STT.load_audio (H0 := Toy.wave_only) Toy.loaded "/tmp/tmpk3x9a.wav"
    Toy.slow_disk
  = (Ret (inl "Error: Audio must be 16000Hz. This file is 8000Hz."), Toy.slow_disk)
  /\ Testing_STT.wave_fallback Toy.loaded Toy.stereo_slow
     = Ret (inl "Error: Without 'librosa', only 16-bit mono PCM WAV files are supported.")
  /\ Testing_STT.wave_fallback Toy.loaded Toy.two_frames = Ret (inr [104%Z; (-1)%Z]).
Proof.
  destruct (@wave_fallback_accepts_and_reports Toy.vosk Toy.wave_only Toy.loaded Toy.slow
              "/tmp/tmpk3x9a.wav" [x01; x02; x08] Toy.slow_disk eq_refl eq_refl eq_refl)
    as (L & _ & _ & _ & R & _).
  destruct (@wave_fallback_accepts_and_reports Toy.vosk Toy.wave_only Toy.loaded
              Toy.stereo_slow "/tmp/tmpk3x9a.wav" [x02; x02; x08]
              Toy.stereo_disk eq_refl eq_refl eq_refl)
    as (_ & _ & _ & P & _).
  destruct (@wave_fallback_accepts_and_reports Toy.vosk Toy.wave_only Toy.loaded
              Toy.two_frames "/tmp/tmpk3x9a.wav" [x01; x02; x10; x68; x00; xff; xff]
              Toy.two_frames_disk eq_refl eq_refl eq_refl)
    as (_ & _ & D & _).
  split; [|split].
  - rewrite L, (R eq_refl eq_refl eq_refl); [reflexivity|discriminate].
  - rewrite P; [reflexivity|]. left. discriminate.
  - now rewrite (D eq_refl eq_refl eq_refl eq_refl).
Defined.

(** C4, as stated, fails: a stereo file and an 8-bit file, each wrong in
    one property only and not in the same one, are refused with the same
    message, so the message does not name the property that is wrong. *)
Lemma format_error_counterexample :
  Spec.only_mismatch 16000 Toy.stereo Spec.ChannelCount
  /\ Spec.only_mismatch 16000 Toy.narrow Spec.SampleWidth
  /\ Testing_STT.wave_fallback Toy.loaded Toy.stereo
     = Ret (inl "Error: Without 'librosa', only 16-bit mono PCM WAV files are supported.")
  /\ Testing_STT.wave_fallback Toy.loaded Toy.narrow
     = Ret (inl "Error: Without 'librosa', only 16-bit mono PCM WAV files are supported.")
  /\ fst (Testing_STT.transcribe_audio_file (H0 := Toy.wave_only) Toy.loaded
            (Toy.upload [x02; x02; x10]) Toy.empty_disk)
     = fst (Testing_STT.transcribe_audio_file (H0 := Toy.wave_only) Toy.loaded
              (Toy.upload [x01; x01; x10]) Toy.empty_disk).
Proof. repeat split; discriminate. Qed.

(** *** One call of [transcribe_audio_file] *)

Section Calls.
Context `{Vosk} `{Platform}.

(** C5.  Two file sessions whose uploads decode to the same chunk
    sequence return the same text, whatever the disk looks like at the start
    of either and whatever names the temporary files get: each call builds
    its own recogniser and the text depends on nothing but the model, the
    rate and the chunks. *)
Theorem file_mode_deterministic (self : Testing_STT.VoskSpeechRecognizer) (m : Model)
    (f1 f2 : Testing_STT.UploadedFile) (w1 w2 : world) (a1 a2 : list Z) :
  Testing_STT.model self = Some m ->
  fst (Testing_STT.decode_upload self f1
         (Testing_STT.entry w1)) = Ret (inr a1) ->
  fst (Testing_STT.decode_upload self f2
         (Testing_STT.entry w2)) = Ret (inr a2) ->
  Testing_STT.chunks_of a1 = Testing_STT.chunks_of a2 ->
  fst (Testing_STT.transcribe_audio_file self f1 w1)
  = fst (Testing_STT.transcribe_audio_file self f2 w2).
Proof.
  intros Hm D1 D2 E.
  rewrite !FileMode.transcribe_audio_file_reports, Hm.
  rewrite (FileMode.try_block_decoded _ _ _ _ _ D1), (FileMode.try_block_decoded _ _ _ _ _ D2).
  now rewrite (FileMode.recognize_chunks _ _ _ _ E).
Qed.

(** C8.  A call always returns a text and never raises.  Without a
    model (as after [__init__], or after a [load_model] that returned
    [False]) the text is "Error: Vosk model is not loaded.".  With a model,
    an exception anywhere in the [try] block gives "Error during
    transcription.".  An early return of the staging gives its message as the
    text: such a message comes from the format check of the [wave] fallback
    and begins with "Error".  Without librosa, an upload whose header is not
    mono, 16-bit and uncompressed is answered with the format message, one
    at another rate with the rate message. *)
Theorem transcribe_audio_file_never_raises (self : Testing_STT.VoskSpeechRecognizer)
    (f : Testing_STT.UploadedFile) (w : world) :
  exists text : string,
    fst (Testing_STT.transcribe_audio_file self f w) = Ret text
    /\ (Testing_STT.model self = None -> text = "Error: Vosk model is not loaded.")
    /\ (forall m e, Testing_STT.model self = Some m ->
          fst (Testing_STT.try_block self m f (Testing_STT.entry w)) = Raise e ->
          text = "Error during transcription.")
    /\ (forall m message, Testing_STT.model self = Some m ->
          fst (Testing_STT.decode_upload self f (Testing_STT.entry w)) = Ret (inl message) ->
          text = message
          /\ String.prefix "Error" text = true
          /\ LIBROSA_AVAILABLE = false
          /\ exists wf, Testing_STT.wave_fallback self wf = Ret (inl message))
    /\ (forall m p w1 data wf, Testing_STT.model self = Some m ->
          LIBROSA_AVAILABLE = false ->
          NamedTemporaryFile (Testing_STT.file_extension f) w = (Ret p, w1) ->
          Testing_STT.read f = Ret data ->
          wave_open data = Ret wf ->
          (getnchannels wf <> 1%N \/ getsampwidth wf <> 2%N \/ getcomptype wf <> "NONE" ->
             text = Spec.only_pcm_message)
          /\ (getnchannels wf = 1%N -> getsampwidth wf = 2%N -> getcomptype wf = "NONE" ->
              getframerate wf <> Testing_STT.sample_rate self ->
                text = Spec.rate_message (Testing_STT.sample_rate self) (getframerate wf)))
    /\ (forall wf message, Testing_STT.wave_fallback self wf = Ret (inl message) ->
          String.prefix "Error" message = true)
    /\ (forall path fresh, Testing_STT.VoskSpeechRecognizer_init path = Ret fresh ->
          Testing_STT.model fresh = None)
    /\ (forall w0 self', Testing_STT.load_model w0 self = (Ret false, self') ->
          self' = self).
Proof.
  eexists. split; [apply FileMode.transcribe_audio_file_reports|].
  split; [|split; [|split; [|split; [|split; [|split]]]]].
  - now intros ->.
  - intros m e -> T. now rewrite T.
  - intros m message -> D.
    rewrite (FileMode.try_block_decoded _ _ _ _ _ D). cbn [Spec.reported].
    destruct (FileMode.decode_upload_message _ _ _ _ D) as (HL & wf & Hw).
    split; [reflexivity|]. split; [|split; [exact HL|now exists wf]].
    exact (FileMode.wave_fallback_message _ _ _ Hw).
  - intros m p w1 data wf Hm HL E Hr Hw.
    pose proof (FileMode.transcribe_audio_file_staged self m f w w1 p data wf
                  Hm HL E Hr Hw) as S.
    rewrite FileMode.transcribe_audio_file_reports in S. injection S as S.
    rewrite S. split.
    + intros Hbad. now rewrite (FileMode.wave_fallback_refuses _ _ Hbad).
    + intros Hc Hs Ht Hrate. now rewrite (FileMode.wave_fallback_rate _ _ Hc Hs Ht Hrate).
  - intros wf message. apply FileMode.wave_fallback_message.
  - intros path fresh. unfold Testing_STT.VoskSpeechRecognizer_init.
    destruct VOSK_AVAILABLE; [|discriminate]. now intros [= <-].
  - intros w0 self'. unfold Testing_STT.load_model, try_except, bind, get, lift, put, ret.
    destruct (negb _).
    + now intros [= <-].
    + destruct (vosk_Model _ _); [discriminate|]. now intros [= <-].
Qed.

(** C7, as amended.  The "Transcribe File" button replaces the stored
    transcript with whatever the call returns.  When the session aborts,
    that is the error message alone: the texts finalised before the failure
    are dropped with the local transcript, and the transcript the page held
    before is overwritten. *)
Theorem aborted_session_stores_the_error (ss : Testing_STT.session_state) (w : world)
    (file : Testing_STT.UploadedFile) (recognizer : Testing_STT.VoskSpeechRecognizer)
    (m : Model) (e : exn) :
  Testing_STT.model_loaded ss = true ->
  Testing_STT.vosk_recognizer ss = Some recognizer ->
  Testing_STT.model recognizer = Some m ->
  fst (Testing_STT.try_block recognizer m file
         (Testing_STT.entry w)) = Raise e ->
  fst (Testing_STT.transcribe_audio_file recognizer file w)
  = Ret "Error during transcription."
  /\ fst (Testing_STT.transcribe_file_button (Some file) true (ss, w)) = Ret tt
  /\ fst (snd (Testing_STT.transcribe_file_button (Some file) true (ss, w)))
     = Testing_STT.set_vosk_transcript "Error during transcription." ss.
Proof.
  intros Hl Hr Hm T.
  pose proof (FileMode.transcribe_audio_file_reports recognizer file w) as R.
  rewrite Hm, T in R. simpl in R.
  split; [exact R|].
  unfold Testing_STT.transcribe_file_button. rewrite Hl, Hr.
  destruct (Testing_STT.transcribe_audio_file recognizer file w) as [o w'].
  simpl in R. subst o. split; reflexivity.
Qed.

End Calls.

Lemma file_mode_deterministic_witness :
  Testing_STT.model Toy.loaded = Some tt
  /\ fst (Testing_STT.transcribe_audio_file (H0 := Toy.wave_only) Toy.loaded
            Toy.short_file Toy.empty_disk)
     = fst (Testing_STT.transcribe_audio_file (H0 := Toy.wave_only) Toy.loaded
              Toy.short_file Toy.busy_disk).
Proof.
  split; [reflexivity|].
  apply (@file_mode_deterministic Toy.vosk Toy.wave_only Toy.loaded tt
           Toy.short_file Toy.short_file Toy.empty_disk Toy.busy_disk [104%Z] [104%Z]).
  - reflexivity.
  - vm_compute. reflexivity.
  - vm_compute. reflexivity.
  - reflexivity.
Defined.

Lemma transcribe_audio_file_never_raises_witness :
  Testing_STT.model Toy.unloaded = None
  /\ fst (Testing_STT.transcribe_audio_file (H0 := Toy.wave_only) Toy.unloaded
            (Toy.upload (Toy.wav Toy.two_words)) Toy.empty_disk)
     = Ret "Error: Vosk model is not loaded."
  /\ wave_open (Platform := Toy.wave_only) [x02; x02; x08] = Ret Toy.stereo_slow
  /\ fst (Testing_STT.transcribe_audio_file (H0 := Toy.wave_only) Toy.loaded
            Toy.stereo_file Toy.empty_disk)
     = Ret "Error: Without 'librosa', only 16-bit mono PCM WAV files are supported."
  /\ fst (Testing_STT.transcribe_audio_file (H0 := Toy.wave_only) Toy.loaded
            (Toy.upload [x01; x02; x08]) Toy.empty_disk)
     = Ret "Error: Audio must be 16000Hz. This file is 8000Hz.".
Proof.
  split; [reflexivity|].
  destruct (@transcribe_audio_file_never_raises Toy.vosk Toy.wave_only Toy.unloaded
              (Toy.upload (Toy.wav Toy.two_words)) Toy.empty_disk)
    as (text & E & N & _).
  split; [rewrite E; f_equal; apply N; reflexivity|].
  split; [reflexivity|].
  destruct (@transcribe_audio_file_never_raises Toy.vosk Toy.wave_only Toy.loaded
              Toy.stereo_file Toy.empty_disk)
    as (text2 & E2 & _ & _ & _ & F2 & _).
  destruct (@transcribe_audio_file_never_raises Toy.vosk Toy.wave_only Toy.loaded
              (Toy.upload [x01; x02; x08]) Toy.empty_disk)
    as (text3 & E3 & _ & _ & _ & F3 & _).
  split.
  - rewrite E2. f_equal.
    apply (F2 tt "/tmp/tmpk3x9a.wav" (snd (NamedTemporaryFile ".wav" Toy.empty_disk))
              [x02; x02; x08] Toy.stereo_slow eq_refl eq_refl eq_refl eq_refl eq_refl).
    left. discriminate.
  - rewrite E3. f_equal.
    apply (F3 tt "/tmp/tmpk3x9a.wav" (snd (NamedTemporaryFile ".wav" Toy.empty_disk))
              [x01; x02; x08] Toy.slow eq_refl eq_refl eq_refl eq_refl eq_refl);
      [reflexivity|reflexivity|reflexivity|discriminate].
Defined.

Lemma aborted_session_stores_the_error_witness :
  Testing_STT.model_loaded (Toy.showing "namaste") = true
  /\ fst (snd (Testing_STT.transcribe_file_button (H0 := Toy.wave_only)
                 (Some Toy.broken_file) true (Toy.showing "namaste", Toy.empty_disk)))
     = Toy.showing "Error during transcription.".
Proof.
  split; [reflexivity|].
  destruct (@aborted_session_stores_the_error Toy.vosk Toy.wave_only
              (Toy.showing "namaste") Toy.empty_disk Toy.broken_file Toy.loaded tt
              (Exception "Exception" "Failed to process waveform")
              eq_refl eq_refl eq_refl ltac:(vm_compute; reflexivity)) as (_ & _ & S).
  rewrite S. reflexivity.
Defined.

(** C7, as stated, fails on the recording "a", pause, undecodable chunk:
    the text "a" is final before the failure, yet the call returns the error
    message alone, and the page, which showed "namaste", shows the error
    message afterwards. *)
Lemma aborted_session_counterexample :
  fst (Spec.final_texts (H := Toy.vosk) false
         (tobytes <$> Testing_STT.chunks_of Toy.broken) "") = ["a"]
  /\ fst (Testing_STT.transcribe_audio_file (H0 := Toy.wave_only) Toy.loaded
            Toy.broken_file Toy.empty_disk)
     = Ret "Error during transcription."
  /\ Testing_STT.vosk_transcript
       (fst (snd (Testing_STT.transcribe_file_button (H0 := Toy.wave_only)
                    (Some Toy.broken_file) true (Toy.showing "namaste", Toy.empty_disk))))
     = "Error during transcription.".
Proof. repeat split; vm_compute; reflexivity. Qed.

(** C9 fails on an upload whose [read()] raises: the temporary file has
    been created by then, its path has not been recorded yet, and the
    [finally] block leaves it on disk. *)
Theorem temp_file_survives_failed_read :
  files Toy.empty_disk !! "/tmp/tmpk3x9a.wav" = None
  /\ fst (Testing_STT.transcribe_audio_file (H0 := Toy.wave_only) Toy.loaded
            Toy.closed_upload Toy.empty_disk)
     = Ret "Error during transcription."
  /\ files (snd (Testing_STT.transcribe_audio_file (H0 := Toy.wave_only) Toy.loaded
                   Toy.closed_upload Toy.empty_disk))
       !! "/tmp/tmpk3x9a.wav"
     = Some [].
Proof.
  assert (NamedTemporaryFile (Testing_STT.file_extension (H0 := Toy.wave_only) Toy.closed_upload)
            Toy.empty_disk
          = (Ret "/tmp/tmpk3x9a.wav",
             snd (NamedTemporaryFile ".wav" Toy.empty_disk))) as E.
  { vm_compute. reflexivity. }
  destruct (@FileMode.temp_file_left Toy.vosk Toy.wave_only Toy.loaded tt Toy.closed_upload
              Toy.empty_disk _ _ _ eq_refl eq_refl E) as (T & F & L).
  rewrite T. repeat split; assumption.
Qed.

End Claims.

(** ** Further properties of the code *)

Module Extras.
Import Py Lib PyFacts.
Local Open Scope py_scope.

(** *** Strings and sample buffers *)

Lemma rstrip_cons (c : ascii) (s : string) :
  isspace c = false -> rstrip (String c s) = String c (rstrip s).
Proof. intros Hc. cbn [rstrip]. rewrite Hc. now destruct (rstrip s). Qed.

Lemma rstrip_unfold (c : ascii) (s : string) :
  rstrip (String c s)
  = match rstrip s with
    | EmptyString => if isspace c then EmptyString else String c EmptyString
    | r => String c r
    end.
Proof. reflexivity. Qed.

Lemma rstrip_idem (s : string) : rstrip (rstrip s) = rstrip s.
Proof.
  induction s as [|c s IH]; [reflexivity|].
  rewrite rstrip_unfold. destruct (rstrip s) as [|d r] eqn:E.
  - destruct (isspace c) eqn:Hc; [reflexivity|].
    rewrite rstrip_unfold. now rewrite Hc.
  - rewrite rstrip_unfold, IH. reflexivity.
Qed.

Lemma lstrip_head (s : string) :
  lstrip s = "" \/ exists c s', lstrip s = String c s' /\ isspace c = false.
Proof.
  induction s as [|c s IH]; [now left|].
  cbn [lstrip]. destruct (isspace c) eqn:Hc; [exact IH|].
  right. now exists c, s.
Qed.

Lemma strip_idem (s : string) : strip (strip s) = strip s.
Proof.
  unfold strip. destruct (lstrip_head s) as [E|(c & s' & E & Hc)]; rewrite E.
  - reflexivity.
  - rewrite (rstrip_cons _ _ Hc). cbn [lstrip]. rewrite Hc.
    now rewrite (rstrip_cons _ _ Hc), rstrip_idem.
Qed.

Lemma prefix_append (a b : string) : String.prefix a (a +:+ b) = true.
Proof.
  induction a as [|c a IH]; [now destruct b|].
  rewrite append_cons. cbn [String.prefix].
  destruct (ascii_dec c c); [exact IH|contradiction].
Qed.

Lemma prefix_trans (a b c : string) :
  String.prefix a b = true -> String.prefix b c = true -> String.prefix a c = true.
Proof.
  revert b c. induction a as [|x a IH]; intros b c; [now destruct c|].
  destruct b as [|y b]; [discriminate|]. destruct c as [|z c]; [now destruct (ascii_dec y y)|].
  cbn [String.prefix].
  destruct (ascii_dec x y) as [->|]; [|discriminate].
  destruct (ascii_dec y z) as [->|]; [|discriminate].
  destruct (ascii_dec z z); [|contradiction]. apply IH.
Qed.

Lemma prefix_refl (a : string) : String.prefix a a = true.
Proof. rewrite <- (append_nil_r a) at 2. apply prefix_append. Qed.

Lemma Z_of_byte_range (b : byte) : (0 <= Z_of_byte b < 256)%Z.
Proof. unfold Z_of_byte. pose proof (Byte.to_N_bounded b). lia. Qed.

Lemma byte_of_Z_of_byte (b : byte) (k : Z) :
  byte_of_Z (Z_of_byte b + 256 * k) = b.
Proof.
  unfold byte_of_Z.
  replace ((Z_of_byte b + 256 * k) mod 256)%Z with (Z_of_byte b).
  - unfold Z_of_byte. now rewrite N2Z.id, Byte.of_to_N.
  - apply (Z.mod_unique _ _ k); [left; apply Z_of_byte_range | lia].
Qed.

(** The two bytes of a sample are the two bytes it was read from. *)
Lemma int16_bytes (lo hi : byte) :
  byte_of_Z (int16_of_bytes lo hi) = lo
  /\ byte_of_Z (int16_of_bytes lo hi / 256) = hi.
Proof.
  pose proof (Z_of_byte_range lo) as Hl. pose proof (Z_of_byte_range hi) as Hh.
  unfold int16_of_bytes. cbv zeta.
  destruct (Z.ltb_spec (Z_of_byte lo + 256 * Z_of_byte hi) 32768).
  - split; [apply byte_of_Z_of_byte|].
    replace ((Z_of_byte lo + 256 * Z_of_byte hi) / 256)%Z with (Z_of_byte hi + 256 * 0)%Z;
      [apply byte_of_Z_of_byte|].
    apply (Z.div_unique _ _ _ (Z_of_byte lo)); [left; lia | lia].
  - split.
    + replace (Z_of_byte lo + 256 * Z_of_byte hi - 65536)%Z
        with (Z_of_byte lo + 256 * (Z_of_byte hi - 256))%Z by lia.
      apply byte_of_Z_of_byte.
    + replace ((Z_of_byte lo + 256 * Z_of_byte hi - 65536) / 256)%Z
        with (Z_of_byte hi + 256 * (-1))%Z; [apply byte_of_Z_of_byte|].
      apply (Z.div_unique _ _ _ (Z_of_byte lo)); [left; lia | lia].
Qed.

Lemma tobytes_cons (x : Z) (a : list Z) :
  tobytes (x :: a) = byte_of_Z x :: byte_of_Z (x / 256) :: tobytes a.
Proof. reflexivity. Qed.

Lemma frombuffer_tobytes_bounded (n : nat) (buf : list byte) (a : list Z) :
  length buf <= n -> frombuffer_int16 buf = Ret a -> tobytes a = buf.
Proof.
  revert buf a. induction n as [|n IH]; intros buf a Hn.
  - destruct buf; [|simpl in Hn; lia]. now intros [= <-].
  - destruct buf as [|lo [|hi buf]]; [now intros [= <-] | discriminate |].
    cbn [frombuffer_int16].
    destruct (frombuffer_int16 buf) as [a'|e] eqn:E; [|discriminate].
    intros [= <-]. rewrite tobytes_cons.
    destruct (int16_bytes lo hi) as [-> ->].
    f_equal. f_equal. apply IH; [simpl in Hn; lia | assumption].
Qed.

(** Decoding a buffer and encoding the samples gives the buffer back. *)
Lemma frombuffer_tobytes (buf : list byte) (a : list Z) :
  frombuffer_int16 buf = Ret a -> tobytes a = buf.
Proof. apply (frombuffer_tobytes_bounded (length buf)). lia. Qed.

Lemma tobytes_concat (ls : list (list Z)) :
  concat (tobytes <$> ls) = tobytes (concat ls).
Proof.
  induction ls as [|l ls IH]; [reflexivity|].
  rewrite fmap_cons. cbn [concat]. rewrite IH.
  unfold tobytes. now rewrite bind_app.
Qed.

Lemma concat_chunks_of (audio : list Z) :
  concat (Testing_STT.chunks_of audio) = audio.
Proof.
  rewrite FileMode.chunks_of_slices, concat_slices. apply take_ge.
  apply (ceil_div_bounds (length audio) Testing_STT.chunk_size FileMode.chunk_size_pos).
Qed.

(** *** One call of [transcribe_audio_file], continued *)

Section Calls.
Context `{Vosk} `{Platform}.

(** X3.  In the [wave] fallback the chunk loop hands the recogniser the
    frame bytes read from the file, in order and without gap or overlap.  A
    recorder on [AcceptWaveform] changes nothing in what the loop returns,
    and what it has recorded when the loop ends is a prefix of the encoded
    chunks of the decoded samples, which put end to end are the frame bytes.
    When the loop returns a transcript the prefix is the whole: the buffers
    given to [AcceptWaveform], end to end, are exactly the frame bytes.  When
    [AcceptWaveform] or [Result] raises midway, what was given is still a
    prefix: no chunk is skipped, repeated or out of order. *)
Theorem recogniser_is_fed_the_frames (self : Testing_STT.VoskSpeechRecognizer)
    (wf : Wave_read) (audio : list Z) (t : string) (r : KaldiRec) :
  Testing_STT.wave_fallback self wf = Ret (inr audio) ->
  concat (tobytes <$> Testing_STT.chunks_of audio) = readframes wf (getnframes wf)
  /\ fst (Testing_STT.for_chunks (H := Spec.recording H)
            (Testing_STT.chunks_of audio) t (r, []))
     = fst (Testing_STT.for_chunks (Testing_STT.chunks_of audio) t r)
  /\ Spec.fed (snd (Testing_STT.for_chunks (H := Spec.recording H)
                      (Testing_STT.chunks_of audio) t (r, [])))
     `prefix_of` (tobytes <$> Testing_STT.chunks_of audio)
  /\ (forall text,
        fst (Testing_STT.for_chunks (Testing_STT.chunks_of audio) t r) = Ret text ->
        concat (Spec.fed (snd (Testing_STT.for_chunks (H := Spec.recording H)
                                 (Testing_STT.chunks_of audio) t (r, []))))
        = readframes wf (getnframes wf)).
Proof.
  intros Hw.
  assert (concat (tobytes <$> Testing_STT.chunks_of audio) = readframes wf (getnframes wf))
    as E.
  { unfold Testing_STT.wave_fallback in Hw.
    destruct (_ || _); [discriminate|].
    destruct (negb _); [discriminate|].
    destruct (frombuffer_int16 (readframes wf (getnframes wf))) as [a|e] eqn:F;
      [|discriminate].
    injection Hw as <-. rewrite tobytes_concat, concat_chunks_of.
    now apply frombuffer_tobytes. }
  assert (forall chunks t0 r0 log, exists k,
            Testing_STT.for_chunks (H := Spec.recording H) chunks t0 (r0, log)
            = (fst (Testing_STT.for_chunks chunks t0 r0),
               (snd (Testing_STT.for_chunks chunks t0 r0),
                log ++ take k (tobytes <$> chunks)))
            /\ (forall text, fst (Testing_STT.for_chunks chunks t0 r0) = Ret text ->
                  k = length chunks)) as R.
  { induction chunks as [|c chunks IH]; intros t0 r0 log.
    - exists 0. split; [|reflexivity]. simpl. unfold ret. now rewrite app_nil_r.
    - rewrite fmap_cons, (FileMode.for_chunks_cons (H := Spec.recording H)),
        (FileMode.for_chunks_cons (H := H)).
      cbn [AcceptWaveform Result Spec.recording fst snd]. unfold zoom. cbn [fst snd].
      destruct (AcceptWaveform (tobytes c) r0) as [[[|]|e] r1]; cbn [fst snd].
      + destruct (Result r1) as [[d|e] r2].
        * destruct (IH (t0 +:+ dict_get d "text" "" +:+ " ") r2 (log ++ [tobytes c]))
            as (k & Ek & Hk).
          exists (S k). split; [|intros text Ht; cbn [length]; f_equal; now apply (Hk text)].
          rewrite Ek. cbn [take]. now rewrite <- app_assoc.
        * exists 1. split; [reflexivity|discriminate].
      + destruct (IH t0 r1 (log ++ [tobytes c])) as (k & Ek & Hk).
        exists (S k). split; [|intros text Ht; cbn [length]; f_equal; now apply (Hk text)].
        rewrite Ek. cbn [take]. now rewrite <- app_assoc.
      + exists 1. split; [reflexivity|discriminate]. }
  destruct (R (Testing_STT.chunks_of audio) t r []) as (k & Ek & Hk).
  rewrite Ek. cbn [fst snd Spec.fed app].
  split; [exact E|]. split; [reflexivity|]. split.
  - apply prefix_take.
  - intros text Ht. rewrite (Hk text Ht), take_ge; [exact E|].
    now rewrite length_fmap.
Qed.

(** X4.  A transcript that comes out of the chunk loop never begins or
    ends with white space: stripping it again changes nothing. *)
Theorem transcript_has_no_outer_space (m : Model) (rate : N) (audio : list Z)
    (text : string) :
  Testing_STT.recognize m rate audio = Ret text -> strip text = text.
Proof.
  rewrite FileMode.recognize_finals.
  destruct (Spec.session_finals m rate audio) as [ts|e]; [|discriminate].
  intros [= <-]. apply strip_idem.
Qed.

End Calls.

Lemma recogniser_is_fed_the_frames_witness :
  Testing_STT.wave_fallback Toy.loaded Toy.two_frames = Ret (inr [104%Z; (-1)%Z])
  /\ concat (Spec.fed (snd (Testing_STT.for_chunks (H := Spec.recording Toy.vosk)
                              (Testing_STT.chunks_of [104%Z; (-1)%Z]) "" ("", []))))
     = [x68; x00; xff; xff].
Proof.
  split; [reflexivity|].
  destruct (@recogniser_is_fed_the_frames Toy.vosk Toy.loaded Toy.two_frames
              [104%Z; (-1)%Z] "" "" eq_refl) as (_ & _ & _ & C).
  exact (C "" eq_refl).
Defined.

Lemma transcript_has_no_outer_space_witness :
  Testing_STT.recognize (H := Toy.vosk) tt 16000 [32%Z] = Ret ""
  /\ strip "" = "".
Proof.
  split; [vm_compute; reflexivity|].
  apply (@transcript_has_no_outer_space Toy.vosk tt 16000%N [32%Z] "").
  vm_compute. reflexivity.
Defined.

(** *** Loading the model and the page of [Testing_STT.py] *)

Section Page.
Context `{Vosk} `{Platform}.

(** X5.  [load_model] never raises.  It answers [True] exactly when the
    model path exists and the model constructor succeeds, and then stores
    the model it built; in every other case it answers [False] and leaves
    the object as it was.  The path and the sample rate are never
    changed. *)
Theorem load_model_outcome (w : world) (self : Testing_STT.VoskSpeechRecognizer) :
  exists (b : bool) (self' : Testing_STT.VoskSpeechRecognizer),
    Testing_STT.load_model w self = (Ret b, self')
    /\ Testing_STT.model_path self' = Testing_STT.model_path self
    /\ Testing_STT.sample_rate self' = Testing_STT.sample_rate self
    /\ (b = true ->
        os_path_exists w (Testing_STT.model_path self) = true
        /\ exists m, vosk_Model (files w) (Testing_STT.model_path self) = Ret m
                     /\ Testing_STT.model self' = Some m)
    /\ (b = false ->
        self' = self
        /\ (os_path_exists w (Testing_STT.model_path self) = false
            \/ exists e, vosk_Model (files w) (Testing_STT.model_path self) = Raise e)).
Proof.
  unfold Testing_STT.load_model, try_except, bind, get, lift, put, ret.
  destruct (os_path_exists w (Testing_STT.model_path self)) eqn:Hp; simpl.
  - destruct (vosk_Model (files w) (Testing_STT.model_path self)) as [m|e] eqn:Hv.
    + eexists true, _. split; [reflexivity|]. repeat split; try discriminate.
      now exists m.
    + eexists false, _. split; [reflexivity|]. repeat split; try discriminate.
      right. now exists e.
  - eexists false, _. split; [reflexivity|]. repeat split; try discriminate.
    now left.
Qed.

Lemma load_model_true (w : world) (self self' : Testing_STT.VoskSpeechRecognizer) :
  Testing_STT.load_model w self = (Ret true, self') -> is_Some (Testing_STT.model self').
Proof.
  unfold Testing_STT.load_model, try_except, bind, get, lift, put, ret.
  destruct (negb _); [discriminate|].
  destruct (vosk_Model _ _) as [m|e]; [|discriminate].
  intros [= <-]. now exists m.
Qed.

Lemma load_model_never_raises (w : world) (self : Testing_STT.VoskSpeechRecognizer) :
  exists b self', Testing_STT.load_model w self = (Ret b, self').
Proof.
  unfold Testing_STT.load_model, try_except, bind, get, lift, put, ret.
  destruct (negb _); [now eexists _, _|].
  destruct (vosk_Model _ _) as [m|e]; now eexists _, _.
Qed.

Lemma load_model_button_keeps_usable (path : string) (clicked : bool)
    (ss : Testing_STT.session_state) (w : world) :
  Testing_STT_page.usable ss = true ->
  exists rerun ss',
    Testing_STT_page.load_model_button path clicked (ss, w) = (Ret rerun, (ss', w))
    /\ Testing_STT_page.usable ss' = true.
Proof.
  intros Hu. unfold Testing_STT_page.load_model_button.
  destruct VOSK_AVAILABLE eqn:Hv; [|now exists false, ss].
  destruct clicked; [|now exists false, ss].
  destruct (os_path_exists w path); [|now exists false, ss].
  unfold Testing_STT.VoskSpeechRecognizer_init. rewrite Hv.
  destruct (load_model_never_raises w
              {| Testing_STT.model_path := path; Testing_STT.model := None;
                 Testing_STT.sample_rate := 16000 |}) as (b & r' & E).
  rewrite E. destruct b.
  - eexists true, _. split; [reflexivity|].
    apply load_model_true in E. unfold Testing_STT_page.usable. simpl.
    now apply bool_decide_eq_true.
  - eexists false, _. split; reflexivity.
Qed.

Lemma transcribe_file_button_keeps_usable (file : option Testing_STT.UploadedFile)
    (clicked : bool) (ss : Testing_STT.session_state) (w : world) :
  Testing_STT_page.usable ss = true ->
  exists ss' w',
    Testing_STT.transcribe_file_button file clicked (ss, w) = (Ret tt, (ss', w'))
    /\ Testing_STT_page.usable ss' = true.
Proof.
  intros Hu. unfold Testing_STT.transcribe_file_button.
  destruct (Testing_STT.model_loaded ss) eqn:Hl; [|now exists ss, w].
  destruct file as [file|]; [|now exists ss, w].
  destruct clicked; [|now exists ss, w].
  unfold Testing_STT_page.usable in Hu. rewrite Hl in Hu. simpl in Hu.
  destruct (Testing_STT.vosk_recognizer ss) as [r|] eqn:Hr; [|discriminate].
  pose proof (FileMode.transcribe_audio_file_reports r file w) as R.
  destruct (Testing_STT.transcribe_audio_file r file w) as [o w1].
  simpl in R. subst o. eexists _, w1. split; [reflexivity|].
  unfold Testing_STT_page.usable. simpl. now rewrite Hl, Hr.
Qed.

Lemma main_keeps_usable (i : Testing_STT_page.inputs) (ss : Testing_STT.session_state)
    (w : world) :
  Testing_STT_page.usable ss = true ->
  exists ss' w',
    Testing_STT_page.main i (ss, w) = (Ret tt, (ss', w'))
    /\ Testing_STT_page.usable ss' = true.
Proof.
  intros Hu. unfold Testing_STT_page.main, bind.
  destruct (load_model_button_keeps_usable (Testing_STT_page.model_path_input i)
              (Testing_STT_page.load_clicked i) ss w Hu) as (rerun & ss1 & E & Hu1).
  rewrite E. destruct rerun.
  - now exists ss1, w.
  - now apply transcribe_file_button_keeps_usable.
Qed.

(** X6.  Whatever the user does, a session of the page that starts from
    the initial state never ends a run with an exception, and whenever
    [model_loaded] is set the session holds a recogniser whose model is
    loaded: the upload tab never meets a missing recogniser. *)
Theorem page_keeps_a_usable_recogniser (actions : list Testing_STT_page.inputs)
    (w : world) :
  fst (Testing_STT_page.main_runs actions (Testing_STT_page.initial_session, w)) = Ret tt
  /\ Testing_STT_page.usable
       (fst (snd (Testing_STT_page.main_runs actions
                    (Testing_STT_page.initial_session, w)))) = true.
Proof.
  enough (forall ss : Testing_STT.session_state,
            Testing_STT_page.usable ss = true ->
            fst (Testing_STT_page.main_runs actions (ss, w)) = Ret tt
            /\ Testing_STT_page.usable
                 (fst (snd (Testing_STT_page.main_runs actions (ss, w)))) = true) as G.
  { now apply G. }
  revert w. induction actions as [|i actions IH]; intros w ss Hu.
  - now split.
  - cbn [Testing_STT_page.main_runs]. unfold bind.
    destruct (main_keeps_usable i ss w Hu) as (ss1 & w1 & E & Hu1).
    rewrite E. now apply IH.
Qed.

(** X7.  A click on "Load Vosk Model" whose path exists but whose model
    cannot be built switches [model_loaded] off and leaves the stored
    recogniser and the transcript alone: a recogniser loaded earlier is still
    in the session, yet the upload tab is closed, in that run and for every
    later click on "Transcribe File". *)
Theorem failed_reload_closes_the_upload_tab (i : Testing_STT_page.inputs)
    (ss : Testing_STT.session_state) (w : world) (e : exn)
    (file : option Testing_STT.UploadedFile) (clicked : bool) :
  VOSK_AVAILABLE = true ->
  Testing_STT_page.load_clicked i = true ->
  os_path_exists w (Testing_STT_page.model_path_input i) = true ->
  vosk_Model (files w) (Testing_STT_page.model_path_input i) = Raise e ->
  Testing_STT_page.main i (ss, w)
  = (Ret tt,
     ({| Testing_STT.vosk_recognizer := Testing_STT.vosk_recognizer ss;
         Testing_STT.model_loaded := false;
         Testing_STT.vosk_transcript := Testing_STT.vosk_transcript ss |}, w))
  /\ Testing_STT.transcribe_file_button file clicked
       (fst (snd (Testing_STT_page.main i (ss, w))), w)
     = (Ret tt, (fst (snd (Testing_STT_page.main i (ss, w))), w)).
Proof.
  intros Hv Hc Hp He.
  assert (Testing_STT_page.main i (ss, w)
          = (Ret tt,
             ({| Testing_STT.vosk_recognizer := Testing_STT.vosk_recognizer ss;
                 Testing_STT.model_loaded := false;
                 Testing_STT.vosk_transcript := Testing_STT.vosk_transcript ss |}, w)))
    as E.
  { unfold Testing_STT_page.main, bind, Testing_STT_page.load_model_button.
    rewrite Hv, Hc, Hp. unfold Testing_STT.VoskSpeechRecognizer_init. rewrite Hv.
    unfold Testing_STT.load_model, try_except, bind, get, lift, put, ret. cbn.
    rewrite Hp, He. cbn. reflexivity. }
  split; [exact E|]. rewrite E. reflexivity.
Qed.

End Page.

Lemma load_model_outcome_witness :
  fst (Testing_STT.load_model (H := Toy.picky) Toy.model_disk
         (@Testing_STT.Build_VoskSpeechRecognizer Toy.picky "broken-model" None 16000))
  = Ret false
  /\ snd (Testing_STT.load_model (H := Toy.picky) Toy.model_disk
            (@Testing_STT.Build_VoskSpeechRecognizer Toy.picky "broken-model" None 16000))
     = @Testing_STT.Build_VoskSpeechRecognizer Toy.picky "broken-model" None 16000.
Proof.
  destruct (@load_model_outcome Toy.picky Toy.model_disk
              (@Testing_STT.Build_VoskSpeechRecognizer Toy.picky "broken-model" None 16000))
    as (b & self' & E & _ & _ & _ & F).
  rewrite E. cbn [fst snd].
  assert (b = false) as Hb.
  { vm_compute in E. now injection E as <- _. }
  split; [now rewrite Hb | exact (proj1 (F Hb))].
Defined.

Lemma failed_reload_closes_the_upload_tab_witness :
  vosk_Model (Vosk := Toy.picky) (files Toy.model_disk) "broken-model"
  = Raise (Exception "Exception" "Failed to create a model")
  /\ fst (snd (Testing_STT_page.main (H := Toy.picky) (H0 := Toy.wave_only)
                 Toy.reload_broken (Toy.picky_showing "namaste", Toy.model_disk)))
     = @Testing_STT.Build_session_state Toy.picky
         (Testing_STT.vosk_recognizer (Toy.picky_showing "namaste")) false "namaste".
Proof.
  split; [reflexivity|].
  destruct (@failed_reload_closes_the_upload_tab Toy.picky Toy.wave_only Toy.reload_broken
              (Toy.picky_showing "namaste") Toy.model_disk
              (Exception "Exception" "Failed to create a model") None false
              eq_refl eq_refl eq_refl eq_refl) as [E _].
  rewrite E. reflexivity.
Defined.

(** *** The live recognisers *)

Section Live.
Context `{Vosk}.

(** X8.  [LiveVoskRecognizer.process] only ever appends: the transcript
    held before a call, or before any run of calls, is a prefix of the one
    held after.  A call that returns gives back exactly the transcript it has
    stored; a call that raises leaves the transcript as it was. *)
Theorem process_only_appends (audio_bytes : list byte) (frames : list (list byte))
    (self : Testing_STT.LiveVoskRecognizer) :
  String.prefix (Testing_STT.transcript self)
    (Testing_STT.transcript (snd (Testing_STT.process audio_bytes self))) = true
  /\ String.prefix (Testing_STT.transcript self)
       (Testing_STT.transcript (snd (Testing_STT.process_each frames self))) = true
  /\ match fst (Testing_STT.process audio_bytes self) with
     | Ret text => text = Testing_STT.transcript (snd (Testing_STT.process audio_bytes self))
     | Raise _ =>
         Testing_STT.transcript (snd (Testing_STT.process audio_bytes self))
         = Testing_STT.transcript self
     end.
Proof.
  split; [|split].
  - rewrite FileMode.process_run.
    destruct (AcceptWaveform audio_bytes (Testing_STT.rec self)) as [[[|]|e] r1].
    + destruct (Result r1) as [[d|e] r2]; simpl;
        [apply prefix_append | apply prefix_refl].
    + destruct (PartialResult r1) as [[d|e] r2]; apply prefix_refl.
    + apply prefix_refl.
  - rewrite FileMode.process_each_texts. apply prefix_append.
  - rewrite FileMode.process_run.
    destruct (AcceptWaveform audio_bytes (Testing_STT.rec self)) as [[[|]|e] r1].
    + destruct (Result r1) as [[d|e] r2]; reflexivity.
    + destruct (PartialResult r1) as [[d|e] r2]; reflexivity.
    + reflexivity.
Qed.

(** One turn of the capture loop touches the recogniser and [final_text]
    only, and [final_text] only by appending. *)
Lemma loop_body_frame (data : list byte) (g : Hindi_STT.globals) :
  Hindi_STT.keep_listening (snd (Hindi_STT.loop_body data g)) = Hindi_STT.keep_listening g
  /\ Hindi_STT.is_listening (snd (Hindi_STT.loop_body data g)) = Hindi_STT.is_listening g
  /\ Hindi_STT.transcript (snd (Hindi_STT.loop_body data g)) = Hindi_STT.transcript g
  /\ Hindi_STT.threads (snd (Hindi_STT.loop_body data g)) = Hindi_STT.threads g
  /\ String.prefix (Hindi_STT.final_text g)
       (Hindi_STT.final_text (snd (Hindi_STT.loop_body data g))) = true.
Proof.
  rewrite LiveMode.loop_body_run.
  destruct (AcceptWaveform data (Hindi_STT.rec g)) as [[[|]|e] r1].
  - destruct (Result r1) as [[d|e] r2]; simpl.
    + destruct (truthy (dict_get d "text" "")); simpl; repeat split;
        apply prefix_append || apply prefix_refl.
    + repeat split. apply prefix_refl.
  - destruct (PartialResult r1) as [[d|e] r2]; simpl; repeat split; apply prefix_refl.
  - simpl. repeat split. apply prefix_refl.
Qed.

Lemma while_cons_stop (sched : list Hindi_STT.event) (g : Hindi_STT.globals) :
  Hindi_STT.while_keep_listening (Hindi_STT.StopRequest :: sched) g
  = Hindi_STT.while_keep_listening sched (Hindi_STT.set_keep_listening false g).
Proof. reflexivity. Qed.

(** A loop that meets chunks only leaves the session state alone. *)
Lemma while_chunks_session (chunks : list (list byte)) (g : Hindi_STT.globals) :
  Hindi_STT.is_listening
    (snd (Hindi_STT.while_keep_listening (Hindi_STT.Chunk <$> chunks) g))
  = Hindi_STT.is_listening g
  /\ Hindi_STT.transcript
       (snd (Hindi_STT.while_keep_listening (Hindi_STT.Chunk <$> chunks) g))
     = Hindi_STT.transcript g.
Proof.
  revert g. induction chunks as [|data chunks IH]; intros g; [now split|].
  rewrite fmap_cons. destruct (Hindi_STT.keep_listening g) eqn:Hk.
  - rewrite (LiveMode.while_cons_chunk _ _ _ Hk).
    destruct (loop_body_frame data g) as (_ & Bl & Bt & _).
    destruct (Hindi_STT.loop_body data g) as [[[]|e] g1]; cbn [snd] in *.
    + destruct (IH g1) as [Il It]. now rewrite Il, It.
    + now split.
  - now rewrite (LiveMode.while_stopped _ _ Hk).
Qed.

(** X9.  Whatever the capture loop meets, it never touches the two
    entries of the session state nor the thread count, never raises the
    [keep_listening] flag, and never removes or rewrites text already in
    [final_text]: what was there is a prefix of what is there afterwards. *)
Theorem loop_only_appends (sched : list Hindi_STT.event) (g : Hindi_STT.globals) :
  Hindi_STT.is_listening (snd (Hindi_STT.while_keep_listening sched g))
  = Hindi_STT.is_listening g
  /\ Hindi_STT.transcript (snd (Hindi_STT.while_keep_listening sched g))
     = Hindi_STT.transcript g
  /\ Hindi_STT.threads (snd (Hindi_STT.while_keep_listening sched g))
     = Hindi_STT.threads g
  /\ implb (Hindi_STT.keep_listening (snd (Hindi_STT.while_keep_listening sched g)))
           (Hindi_STT.keep_listening g) = true
  /\ String.prefix (Hindi_STT.final_text g)
       (Hindi_STT.final_text (snd (Hindi_STT.while_keep_listening sched g))) = true.
Proof.
  revert g. induction sched as [|[data|] sched IH]; intros g.
  - simpl. repeat split; [apply Bool.implb_same | apply prefix_refl].
  - destruct (Hindi_STT.keep_listening g) eqn:Hk.
    + rewrite (LiveMode.while_cons_chunk _ _ _ Hk).
      destruct (loop_body_frame data g) as (Bk & Bl & Bt & Bn & Bp).
      destruct (Hindi_STT.loop_body data g) as [[[]|e] g1]; cbn [snd] in *.
      * destruct (IH g1) as (Il & It & In & Ik & Ip).
        rewrite Il, It, In, Bl, Bt, Bn. repeat split.
        -- now rewrite Bk, Hk in Ik.
        -- exact (prefix_trans _ _ _ Bp Ip).
      * rewrite Bk, Hk. now repeat split.
    + rewrite (LiveMode.while_stopped _ _ Hk). cbn [snd]. rewrite Hk.
      repeat split. apply prefix_refl.
  - rewrite while_cons_stop.
    destruct (IH (Hindi_STT.set_keep_listening false g)) as (Il & It & In & Ik & Ip).
    rewrite Il, It, In. repeat split; [|exact Ip].
    simpl in Ik.
    destruct (Hindi_STT.keep_listening
                (snd (Hindi_STT.while_keep_listening sched
                        (Hindi_STT.set_keep_listening false g)))); [discriminate|].
    reflexivity.
Qed.

(** A loop that meets chunks only leaves the flag as it is. *)
Lemma while_chunks_flag (chunks : list (list byte)) (g : Hindi_STT.globals) :
  Hindi_STT.keep_listening
    (snd (Hindi_STT.while_keep_listening (Hindi_STT.Chunk <$> chunks) g))
  = Hindi_STT.keep_listening g.
Proof.
  revert g. induction chunks as [|data chunks IH]; intros g; [reflexivity|].
  rewrite fmap_cons. destruct (Hindi_STT.keep_listening g) eqn:Hk.
  - rewrite (LiveMode.while_cons_chunk _ _ _ Hk).
    destruct (loop_body_frame data g) as (Bk & _).
    destruct (Hindi_STT.loop_body data g) as [[[]|e] g1]; cbn [snd] in *.
    + rewrite IH. now rewrite Bk.
    + now rewrite Bk.
  - now rewrite (LiveMode.while_stopped _ _ Hk).
Qed.

Lemma page_run (click : option Hindi_STT.button) (g : Hindi_STT.globals) :
  Hindi_STT.page click g
  = (Ret tt,
     match click with
     | Some Hindi_STT.StartListening =>
         Hindi_STT.start_thread
           (Hindi_STT.set_transcript ""
              (Hindi_STT.set_final_text ""
                 (Hindi_STT.set_keep_listening true
                    (Hindi_STT.set_is_listening true g))))
     | Some Hindi_STT.StopListening =>
         Hindi_STT.set_is_listening false (Hindi_STT.set_keep_listening false g)
     | Some Hindi_STT.ClearTranscript =>
         Hindi_STT.set_final_text "" (Hindi_STT.set_transcript "" g)
     | None => g
     end).
Proof.
  unfold Hindi_STT.page, Hindi_STT.start_handler, Hindi_STT.stop_handler,
    Hindi_STT.clear_handler, Hindi_STT.st_button, bind, get, modify, ret.
  destruct click as [[| |]|]; reflexivity.
Qed.

(** X10.  While listening, a turn of the display loop shows everything
    the capture loop has appended.  Once Stop has been clicked the display
    loop copies nothing any more: what was finalised since its last turn is
    in [final_text] but never reaches the displayed transcript. *)
Theorem display_follows_until_stop (chunks : list (list byte)) (g : Hindi_STT.globals) :
  Hindi_STT.is_listening g = true ->
  Hindi_STT.keep_listening g = true ->
  Hindi_STT.transcript
    (snd (Hindi_STT.display_turn
            (snd (Hindi_STT.while_keep_listening (Hindi_STT.Chunk <$> chunks) g))))
  = Hindi_STT.final_text g
    +:+ Spec.with_trailing " "
          (List.filter truthy (fst (Spec.final_texts true chunks (Hindi_STT.rec g))))
  /\ Hindi_STT.transcript
       (snd (Hindi_STT.display_turn
               (snd (Hindi_STT.page (Some Hindi_STT.StopListening)
                       (snd (Hindi_STT.while_keep_listening
                               (Hindi_STT.Chunk <$> chunks) g))))))
     = Hindi_STT.transcript g.
Proof.
  intros Hl Hk.
  destruct (while_chunks_session chunks g) as [Fl Ft].
  pose proof (while_chunks_flag chunks g) as Fk.
  pose proof (LiveMode.while_chunks_run chunks g Hk) as L.
  set (after := snd (Hindi_STT.while_keep_listening (Hindi_STT.Chunk <$> chunks) g)) in *.
  assert (Hindi_STT.final_text after
          = Hindi_STT.final_text g
            +:+ Spec.with_trailing " "
                  (List.filter truthy
                     (fst (Spec.final_texts true chunks (Hindi_STT.rec g))))) as E.
  { subst after.
    destruct (Spec.final_texts true chunks (Hindi_STT.rec g)) as [ts [r1|e]].
    - now rewrite L.
    - apply L. }
  split.
  - unfold Hindi_STT.display_turn, bind, get, modify.
    rewrite Fl, Fk, Hl, Hk. simpl. exact E.
  - rewrite page_run. cbn [snd].
    unfold Hindi_STT.display_turn, bind, get, ret. simpl. exact Ft.
Qed.

End Live.

Lemma display_follows_until_stop_witness :
  Hindi_STT.is_listening Toy.listening = true
  /\ Hindi_STT.keep_listening Toy.listening = true
  /\ Hindi_STT.transcript
       (snd (Hindi_STT.display_turn
               (snd (Hindi_STT.while_keep_listening
                       (Hindi_STT.Chunk <$> Toy.hi ++ [Toy.silence]) Toy.listening))))
     = "hi "
  /\ Hindi_STT.transcript
       (snd (Hindi_STT.display_turn
               (snd (Hindi_STT.page (Some Hindi_STT.StopListening)
                       (snd (Hindi_STT.while_keep_listening
                               (Hindi_STT.Chunk <$> Toy.hi ++ [Toy.silence])
                               Toy.listening))))))
     = "".
Proof.
  split; [reflexivity|]. split; [reflexivity|].
  destruct (@display_follows_until_stop Toy.vosk (Toy.hi ++ [Toy.silence]) Toy.listening
              eq_refl eq_refl) as [D S].
  split; [rewrite D | rewrite S]; reflexivity.
Defined.

(** *** The capture callback *)

(** X11.  The capture callback enqueues a block at the tail of the queue
    only when the device reports no status.  The first block that comes
    with a status makes it raise [NameError] ([sys] is not imported): that
    block and every later one are lost, and the queue holds the blocks that
    came before, after what it held, in arrival order. *)
Theorem capture_stops_at_first_status (blocks : list (list byte * bool))
    (q : list (list byte)) :
  snd (Hindi_STT_runs.capture blocks q) = q ++ Hindi_STT_runs.before_status blocks
  /\ fst (Hindi_STT_runs.capture blocks q)
     = if forallb (fun b => negb (snd b)) blocks
       then Ret tt
       else Raise (Exception "NameError" "name 'sys' is not defined").
Proof.
  revert q. induction blocks as [|[indata status] blocks IH]; intros q.
  - simpl. now rewrite app_nil_r.
  - cbn [Hindi_STT_runs.capture Hindi_STT_runs.before_status forallb snd].
    unfold bind, Hindi_STT_runs.callback. destruct status; simpl.
    + now rewrite app_nil_r.
    + destruct (IH (q ++ [indata])) as [I1 I2].
      rewrite I1, I2. split; [|reflexivity].
      now rewrite <- app_assoc.
Qed.

(** *** The script of the browser component *)

Lemma scan_parts (rs : list WebSpeech.SpeechRecognitionResult) (final interim : string) :
  WebSpeech.scan rs final interim
  = (final +:+ Spec.with_trailing " " (WebSpeech.transcript <$> List.filter WebSpeech.isFinal rs),
     interim +:+ Spec.with_trailing ""
                   (WebSpeech.transcript
                      <$> List.filter (fun r => negb (WebSpeech.isFinal r)) rs)).
Proof.
  revert final interim. induction rs as [|r rs IH]; intros final interim.
  - simpl. now rewrite !append_nil_r.
  - cbn [WebSpeech.scan List.filter]. destruct (WebSpeech.isFinal r); simpl; rewrite IH.
    + f_equal.
      change (Spec.with_trailing " " (WebSpeech.transcript r :: ?l))
        with (WebSpeech.transcript r +:+ " " +:+ Spec.with_trailing " " l).
      now rewrite !append_assoc.
    + f_equal.
      change (Spec.with_trailing "" (WebSpeech.transcript r :: ?l))
        with (WebSpeech.transcript r +:+ "" +:+ Spec.with_trailing "" l).
      now rewrite !append_assoc.
Qed.

(** X12.  Over any run of result events, [recognition.onresult] appends
    to [finalTranscript] the final parts of the events, in order, each
    followed by one space, and never a tentative part.  After an event the
    final span shows [finalTranscript], and the interim span shows the
    tentative parts of that event alone: it is rewritten, not extended.
    [clearTranscript] is undone by nothing that came before: after it the
    transcript holds only what later events bring. *)
Theorem onresult_appends_final_parts (events : list WebSpeech.SpeechRecognitionEvent)
    (event : WebSpeech.SpeechRecognitionEvent) (c : WebSpeech.component) :
  WebSpeech.finalTranscript (foldl (fun c e => WebSpeech.onresult e c) c events)
  = WebSpeech.finalTranscript c
    +:+ Spec.with_trailing " " (events ≫= WebSpeech.final_parts)
  /\ WebSpeech.finalSpan (WebSpeech.onresult event c)
     = WebSpeech.finalTranscript (WebSpeech.onresult event c)
  /\ WebSpeech.interimSpan (WebSpeech.onresult event c)
     = Spec.with_trailing "" (WebSpeech.interim_parts event)
  /\ WebSpeech.finalTranscript
       (foldl (fun c e => WebSpeech.onresult e c) (WebSpeech.clearTranscript c) events)
     = Spec.with_trailing " " (events ≫= WebSpeech.final_parts).
Proof.
  assert (forall e c0,
            WebSpeech.onresult e c0
            = {| WebSpeech.finalTranscript :=
                   WebSpeech.finalTranscript c0
                   +:+ Spec.with_trailing " " (WebSpeech.final_parts e);
                 WebSpeech.finalSpan :=
                   WebSpeech.finalTranscript c0
                   +:+ Spec.with_trailing " " (WebSpeech.final_parts e);
                 WebSpeech.interimSpan :=
                   Spec.with_trailing "" (WebSpeech.interim_parts e) |}) as One.
  { intros e c0. unfold WebSpeech.onresult. now rewrite scan_parts. }
  assert (forall es c0,
            WebSpeech.finalTranscript (foldl (fun c e => WebSpeech.onresult e c) c0 es)
            = WebSpeech.finalTranscript c0
              +:+ Spec.with_trailing " " (es ≫= WebSpeech.final_parts)) as Many.
  { intros es. induction es as [|e es IH]; intros c0.
    - simpl. now rewrite append_nil_r.
    - cbn [foldl]. rewrite IH, One. cbn [WebSpeech.finalTranscript].
      rewrite bind_cons, with_trailing_app. now rewrite append_assoc. }
  split; [apply Many|]. split; [now rewrite One|]. split; [now rewrite One|].
  rewrite Many. reflexivity.
Qed.

End Extras.
